(** * AetherFlow HCS-10 agent registry: a shallow embedding

    The development follows four source files of the backend:
    - [models/ai_agents.py]        the [AIAgent] row class and its helpers,
    - [hedera/client.py]           the [HederaClient] topic operations,
    - [hcs10/agent_registry.py]    the [AgentRegistry] protocol methods,
    - [api/v1/endpoints/hcs10_communication.py]  the REST endpoints on top.

    Python objects are mutated in place and may be aliased, so agents live in
    a store indexed by reference; the consensus service is an oracle that
    answers the n-th call of each kind. *)

From Stdlib Require Import ZArith String Ascii List DecimalString.
From Stdlib Require Import Numbers.DecimalZ.
From stdpp Require Import base option list gmap strings.

Local Open Scope Z_scope.

(** ** Python conventions *)

(** Truthiness of an [Optional[str]]: [None] and the empty string are falsy. *)
Definition truthy (o : option string) : bool :=
  match o with
  | Some s => negb (String.eqb s "")
  | None => false
  end.

(** [f"{x}"] for an [Optional[str]]. *)
Definition fmt_opt (o : option string) : string :=
  match o with
  | Some s => s
  | None => "None"
  end.

(** [f"{n}"] for an [int]. *)
Definition fmt_int (z : Z) : string := NilZero.string_of_int (Z.to_int z).

(** ** models/ai_agents.py *)

Inductive AgentStatus := ACTIVE | INACTIVE | SUSPENDED | DELETED.

#[global] Instance AgentStatus_eq_dec : EqDecision AgentStatus.
Proof. solve_decision. Defined.

(** The columns of [ai_agents] the protocol reads or writes.  Reputation,
    balances, [capabilities], [profile_metadata], [created_at] and
    [updated_at] are carried by no protocol operation and are left out.
    Timestamps are integers. *)
Record AIAgent := mkAIAgent {
  id : nat;
  account_id : string;
  agent_name : string;
  agent_type : string;
  status : AgentStatus;
  registry_topic_id : option string;
  inbound_topic_id : option string;
  outbound_topic_id : option string;
  ttl : Z;
  max_connections : Z;
  active_connections : Z;
  messages_sent : Z;
  messages_received : Z;
  registration_tx_id : option string;
  last_activity : Z
}.

Definition set_status (v : AgentStatus) (a : AIAgent) : AIAgent :=
  mkAIAgent (id a) (account_id a) (agent_name a) (agent_type a) v
    (registry_topic_id a) (inbound_topic_id a) (outbound_topic_id a) (ttl a)
    (max_connections a) (active_connections a) (messages_sent a)
    (messages_received a) (registration_tx_id a) (last_activity a).

Definition set_inbound_topic_id (v : option string) (a : AIAgent) : AIAgent :=
  mkAIAgent (id a) (account_id a) (agent_name a) (agent_type a) (status a)
    (registry_topic_id a) v (outbound_topic_id a) (ttl a)
    (max_connections a) (active_connections a) (messages_sent a)
    (messages_received a) (registration_tx_id a) (last_activity a).

Definition set_outbound_topic_id (v : option string) (a : AIAgent) : AIAgent :=
  mkAIAgent (id a) (account_id a) (agent_name a) (agent_type a) (status a)
    (registry_topic_id a) (inbound_topic_id a) v (ttl a)
    (max_connections a) (active_connections a) (messages_sent a)
    (messages_received a) (registration_tx_id a) (last_activity a).

Definition set_active_connections (v : Z) (a : AIAgent) : AIAgent :=
  mkAIAgent (id a) (account_id a) (agent_name a) (agent_type a) (status a)
    (registry_topic_id a) (inbound_topic_id a) (outbound_topic_id a) (ttl a)
    (max_connections a) v (messages_sent a)
    (messages_received a) (registration_tx_id a) (last_activity a).

Definition set_messages_sent (v : Z) (a : AIAgent) : AIAgent :=
  mkAIAgent (id a) (account_id a) (agent_name a) (agent_type a) (status a)
    (registry_topic_id a) (inbound_topic_id a) (outbound_topic_id a) (ttl a)
    (max_connections a) (active_connections a) v
    (messages_received a) (registration_tx_id a) (last_activity a).

Definition set_messages_received (v : Z) (a : AIAgent) : AIAgent :=
  mkAIAgent (id a) (account_id a) (agent_name a) (agent_type a) (status a)
    (registry_topic_id a) (inbound_topic_id a) (outbound_topic_id a) (ttl a)
    (max_connections a) (active_connections a) (messages_sent a)
    v (registration_tx_id a) (last_activity a).

Definition set_registration_tx_id (v : option string) (a : AIAgent) : AIAgent :=
  mkAIAgent (id a) (account_id a) (agent_name a) (agent_type a) (status a)
    (registry_topic_id a) (inbound_topic_id a) (outbound_topic_id a) (ttl a)
    (max_connections a) (active_connections a) (messages_sent a)
    (messages_received a) v (last_activity a).

Definition set_last_activity (v : Z) (a : AIAgent) : AIAgent :=
  mkAIAgent (id a) (account_id a) (agent_name a) (agent_type a) (status a)
    (registry_topic_id a) (inbound_topic_id a) (outbound_topic_id a) (ttl a)
    (max_connections a) (active_connections a) (messages_sent a)
    (messages_received a) (registration_tx_id a) v.

(** The JSON dictionaries posted to a topic, one constructor per [op]. *)
Inductive Payload :=
| OpRegister (account : string) (m : string)
| OpDelete (uid : string) (m : string)
| OpConnectionRequest (operator_id : string) (m : string)
| OpConnectionCreated (connection_topic_id : option string)
    (connected_account_id : string) (operator_id : string)
    (connection_id : Z) (m : string)
| OpMessage (operator_id : string) (data : string) (m : string)
| OpTransaction (operator_id : string) (schedule_id : string)
    (data : string) (m : string).

(** The ["op"] entry of a payload. *)
Definition op_of (p : Payload) : string :=
  match p with
  | OpRegister _ _ => "register"
  | OpDelete _ _ => "delete"
  | OpConnectionRequest _ _ => "connection_request"
  | OpConnectionCreated _ _ _ _ _ => "connection_created"
  | OpMessage _ _ _ => "message"
  | OpTransaction _ _ _ _ => "transaction"
  end.

(** The ["operator_id"] entry, for the payloads that have one. *)
Definition operator_id_of (p : Payload) : option string :=
  match p with
  | OpRegister _ _ | OpDelete _ _ => None
  | OpConnectionRequest o _ => Some o
  | OpConnectionCreated _ _ o _ _ => Some o
  | OpMessage o _ _ => Some o
  | OpTransaction o _ _ _ => Some o
  end.

Definition get_hcs10_register_payload (self : AIAgent) : Payload :=
  OpRegister (account_id self)
    ("Registering " +:+ agent_type self +:+ " agent: " +:+ agent_name self).

(** [type_map.get(topic_type, '0')] *)
Definition type_map_get (topic_type : string) : string :=
  if String.eqb topic_type "registry" then "3"
  else if String.eqb topic_type "inbound" then "0"
  else if String.eqb topic_type "outbound" then "1"
  else if String.eqb topic_type "connection" then "2"
  else "0".

Definition get_topic_memo (self : AIAgent) (topic_type : string) : string :=
  if String.eqb topic_type "registry" then
    "hcs-10:0:" +:+ fmt_int (ttl self) +:+ ":3:" +:+
      (if truthy (registry_topic_id self)
       then fmt_opt (registry_topic_id self) else "")
  else if String.eqb topic_type "inbound" then
    "hcs-10:0:" +:+ fmt_int (ttl self) +:+ ":0:" +:+ account_id self
  else if String.eqb topic_type "outbound" then
    "hcs-10:0:" +:+ fmt_int (ttl self) +:+ ":1"
  else
    "hcs-10:0:" +:+ fmt_int (ttl self) +:+ ":" +:+ type_map_get topic_type.

(** [update_activity], given the reading of [datetime.utcnow()]. *)
Definition update_activity (now : Z) (self : AIAgent) : AIAgent :=
  set_last_activity now self.

Definition increment_messages_sent (now : Z) (self : AIAgent) : AIAgent :=
  update_activity now (set_messages_sent (messages_sent self + 1) self).

Definition increment_messages_received (now : Z) (self : AIAgent) : AIAgent :=
  update_activity now (set_messages_received (messages_received self + 1) self).

(** ** The world: consensus service, clock, object store, table *)

(** One [create_topic] call and what it returned. *)
Record TopicCreate := mkTopicCreate {
  tc_memo : option string;
  tc_admin_key : bool;
  tc_result : option string
}.

(** One [submit_message] call and what it returned. *)
Record Submission := mkSubmission {
  sm_topic_id : option string;
  sm_message : Payload;
  sm_memo : option string;
  sm_result : option string
}.

(** [create_reply n], [submit_reply n] and [utcnow n] are the answers of the
    n-th call (from 0) of [HederaClient.create_topic],
    [HederaClient.submit_message] and [datetime.utcnow]; [topics] and
    [messages] record the calls made so far, oldest first.  [objs] holds the
    live [AIAgent] objects by reference, [ai_agents] the committed rows.
    [insert_ok row] tells whether the database accepts [row] on insert: the
    integer range of the driver, and the column lengths where it enforces
    them. *)
Record State := mkState {
  create_reply : nat -> option string;
  submit_reply : nat -> option string;
  utcnow : nat -> Z;
  topics : list TopicCreate;
  messages : list Submission;
  clock_reads : nat;
  registry_topic : option string;
  objs : gmap nat AIAgent;
  ai_agents : list AIAgent;
  insert_ok : AIAgent -> bool
}.

Definition set_topics (v : list TopicCreate) (s : State) : State :=
  mkState (create_reply s) (submit_reply s) (utcnow s) v (messages s)
    (clock_reads s) (registry_topic s) (objs s) (ai_agents s) (insert_ok s).

Definition set_messages (v : list Submission) (s : State) : State :=
  mkState (create_reply s) (submit_reply s) (utcnow s) (topics s) v
    (clock_reads s) (registry_topic s) (objs s) (ai_agents s) (insert_ok s).

Definition set_clock_reads (v : nat) (s : State) : State :=
  mkState (create_reply s) (submit_reply s) (utcnow s) (topics s) (messages s)
    v (registry_topic s) (objs s) (ai_agents s) (insert_ok s).

Definition set_registry_topic (v : option string) (s : State) : State :=
  mkState (create_reply s) (submit_reply s) (utcnow s) (topics s) (messages s)
    (clock_reads s) v (objs s) (ai_agents s) (insert_ok s).

Definition set_objs (v : gmap nat AIAgent) (s : State) : State :=
  mkState (create_reply s) (submit_reply s) (utcnow s) (topics s) (messages s)
    (clock_reads s) (registry_topic s) v (ai_agents s) (insert_ok s).

Definition set_ai_agents (v : list AIAgent) (s : State) : State :=
  mkState (create_reply s) (submit_reply s) (utcnow s) (topics s) (messages s)
    (clock_reads s) (registry_topic s) (objs s) v (insert_ok s).

(** A computation over the world.  [None] is a use of a reference that
    names no object, which Python cannot express. *)
Definition M (A : Type) : Type := State -> option (A * State).

#[global] Instance M_ret : MRet M := fun A x s => Some (x, s).
#[global] Instance M_bind : MBind M := fun A B f m s =>
  match m s with
  | Some (x, s') => f x s'
  | None => None
  end.

Definition get_state : M State := fun s => Some (s, s).
Definition put_state (s' : State) : M unit := fun _ => Some (tt, s').

Definition read_obj (r : nat) : M AIAgent := fun s =>
  match objs s !! r with
  | Some a => Some (a, s)
  | None => None
  end.

Definition update_obj (r : nat) (f : AIAgent -> AIAgent) : M unit := fun s =>
  match objs s !! r with
  | Some a => Some (tt, set_objs (<[r := f a]> (objs s)) s)
  | None => None
  end.

(** [datetime.utcnow()] *)
Definition now : M Z := fun s =>
  Some (utcnow s (clock_reads s), set_clock_reads (S (clock_reads s)) s).

(** [agent.increment_messages_sent()] and
    [agent.increment_messages_received()] on the object at [r]. *)
Definition call_increment_messages_sent (r : nat) : M unit :=
  t ← now;
  update_obj r (increment_messages_sent t).

Definition call_increment_messages_received (r : nat) : M unit :=
  t ← now;
  update_obj r (increment_messages_received t).

(** [if c: body] for a body without a value. *)
Definition when (c : bool) (body : M unit) : M unit :=
  if c then body else mret tt.

(** ** hedera/client.py *)

Module HederaClient.

(** Both methods catch every exception and return [None]; without the SDK
    they return a constant.  Either way the caller sees an
    [Optional[str]], here the oracle's answer. *)
Definition create_topic (memo : option string) (admin_key : bool)
  : M (option string) := fun s =>
  let r := create_reply s (length (topics s)) in
  Some (r, set_topics (topics s ++ [mkTopicCreate memo admin_key r]) s).

Definition submit_message (topic_id : option string) (message : Payload)
  (memo : option string) : M (option string) := fun s =>
  let r := submit_reply s (length (messages s)) in
  Some (r, set_messages (messages s ++ [mkSubmission topic_id message memo r]) s).

End HederaClient.

(** ** hcs10/agent_registry.py *)

Module AgentRegistry.
Import HederaClient.

(** [self.ttl], set once in [__init__]. *)
Definition registry_ttl : Z := 60.

Definition get_registry_topic : M (option string) :=
  fun s => Some (registry_topic s, s).

Definition put_registry_topic (v : option string) : M unit :=
  fun s => Some (tt, set_registry_topic v s).

Definition initialize_registry : M (option string) :=
  rt ← get_registry_topic;
  if truthy rt then mret rt
  else
    topic_id ← create_topic
      (Some ("hcs-10:0:" +:+ fmt_int registry_ttl +:+ ":3:")) true;
    when (truthy topic_id) (put_registry_topic topic_id);;
    mret topic_id.

Definition register_agent (agent : nat) : M (option string) :=
  rt ← get_registry_topic;
  when (negb (truthy rt)) (initialize_registry;; mret tt);;
  rt ← get_registry_topic;
  if negb (truthy rt) then mret None
  else
    a ← read_obj agent;
    tx_id ← submit_message rt (get_hcs10_register_payload a)
      (Some "hcs-10:op:0:0");
    when (truthy tx_id)
      (update_obj agent (fun a => set_status ACTIVE (set_registration_tx_id tx_id a)));;
    mret tx_id.

Definition delete_agent (agent : nat) (uid : string) : M (option string) :=
  rt ← get_registry_topic;
  if negb (truthy rt) then mret None
  else
    a ← read_obj agent;
    tx_id ← submit_message rt
      (OpDelete uid ("Removing agent " +:+ agent_name a +:+ " from registry."))
      (Some "hcs-10:op:1:0");
    when (truthy tx_id) (update_obj agent (set_status DELETED));;
    mret tx_id.

(** The returned pair is the [topics] dictionary: its ["inbound"] and
    ["outbound"] entries. *)
Definition create_agent_topics (agent : nat)
  : M (option string * option string) :=
  a ← read_obj agent;
  inbound_topic_id ← create_topic (Some (get_topic_memo a "inbound")) true;
  when (truthy inbound_topic_id)
    (update_obj agent (set_inbound_topic_id inbound_topic_id));;
  a ← read_obj agent;
  outbound_topic_id ← create_topic (Some (get_topic_memo a "outbound")) true;
  when (truthy outbound_topic_id)
    (update_obj agent (set_outbound_topic_id outbound_topic_id));;
  mret (if truthy inbound_topic_id then inbound_topic_id else None,
        if truthy outbound_topic_id then outbound_topic_id else None).

(** [f"{agent.account_id}@{agent.inbound_topic_id}"] *)
Definition operator_id (a : AIAgent) : string :=
  account_id a +:+ "@" +:+ fmt_opt (inbound_topic_id a).

Definition send_connection_request (from_agent : nat)
  (to_agent_inbound_topic : string) : M (option string) :=
  a ← read_obj from_agent;
  if negb (truthy (outbound_topic_id a)) then mret None
  else
    tx_id ← submit_message (Some to_agent_inbound_topic)
      (OpConnectionRequest (operator_id a)
         ("Requesting connection from " +:+ agent_name a))
      (Some "hcs-10:op:3:1");
    when (truthy tx_id) (call_increment_messages_sent from_agent);;
    mret tx_id.

Definition _notify_connection_created (to_agent from_agent : nat)
  (connection_topic_id : option string) (connection_id : Z)
  : M (option string) :=
  f ← read_obj from_agent;
  t ← read_obj to_agent;
  tx_id ← submit_message (inbound_topic_id t)
    (OpConnectionCreated connection_topic_id (account_id f) (operator_id f)
       connection_id ("Connection established with " +:+ agent_name f))
    (Some "hcs-10:op:4:1");
  when (truthy tx_id)
    (call_increment_messages_received to_agent;;
     update_obj to_agent
       (fun a => set_active_connections (active_connections a + 1) a));;
  mret tx_id.

Definition create_connection_topic (agent_a agent_b : nat)
  (connection_id : Z) : M (option string) :=
  a ← read_obj agent_a;
  connection_topic_id ← create_topic
    (Some ("hcs-10:1:" +:+ fmt_int registry_ttl +:+ ":2:" +:+
           fmt_opt (inbound_topic_id a) +:+ ":" +:+ fmt_int connection_id))
    true;
  when (truthy connection_topic_id)
    (_notify_connection_created agent_a agent_b connection_topic_id connection_id;;
     _notify_connection_created agent_b agent_a connection_topic_id connection_id;;
     mret tt);;
  mret connection_topic_id.

Definition send_message (from_agent : nat) (connection_topic_id : string)
  (message_data : string) : M (option string) :=
  a ← read_obj from_agent;
  tx_id ← submit_message (Some connection_topic_id)
    (OpMessage (operator_id a) message_data "Standard communication.")
    (Some "hcs-10:op:6:3");
  when (truthy tx_id) (call_increment_messages_sent from_agent);;
  mret tx_id.

Definition send_transaction_request (from_agent : nat)
  (connection_topic_id : string) (schedule_id : string)
  (transaction_data : string) : M (option string) :=
  a ← read_obj from_agent;
  tx_id ← submit_message (Some connection_topic_id)
    (OpTransaction (operator_id a) schedule_id transaction_data
       "For your approval.")
    (Some "hcs-10:op:7:3");
  when (truthy tx_id) (call_increment_messages_sent from_agent);;
  mret tx_id.

End AgentRegistry.

(** ** api/v1/endpoints/hcs10_communication.py *)

Module Api.

(** What a handler ends with: an [HTTPException] with its status code, or
    the returned dictionary. *)
Inductive Http (A : Type) :=
| Raise (status_code : nat) (detail : string)
| Return (body : A).
Arguments Raise {A} _ _.
Arguments Return {A} _.

Record AgentRegistrationRequest := mkAgentRegistrationRequest {
  rq_agent_name : string;
  rq_agent_type : string;
  rq_account_id : string;
  rq_max_connections : option Z
}.

Record RegistrationResponse := mkRegistrationResponse {
  rs_agent_id : nat;
  rs_account_id : string;
  rs_registration_tx_id : option string;
  rs_inbound_topic_id : option string;
  rs_outbound_topic_id : option string
}.

Record SendResponse := mkSendResponse {
  rs_status : string;
  rs_tx_id : option string
}.

(** [select(AIAgent).where(AIAgent.account_id == x)] over the table. *)
Definition select_by_account_id (x : string) : M (list AIAgent) :=
  fun s => Some (filter (fun a => account_id a = x) (ai_agents s), s).

(** [result.scalar_one_or_none()]: [None] is [MultipleResultsFound]. *)
Definition scalar_one_or_none (rows : list AIAgent) : option (option AIAgent) :=
  match rows with
  | [] => Some None
  | [a] => Some (Some a)
  | _ => None
  end.

(** The next value of the autoincrement primary key. *)
Definition next_id (rows : list AIAgent) : nat :=
  S (foldr Nat.max 0%nat (map id rows)).

(** A row read by the session becomes an object of the store. *)
Definition load (row : AIAgent) : M nat := fun s =>
  let r := fresh (dom (objs s)) in
  Some (r, set_objs (<[r := row]> (objs s)) s).

(** [db.add(agent); await db.commit(); await db.refresh(agent)]: the
    column defaults are applied and the key is assigned; when the database
    accepts the row it is stored, and otherwise the commit raises, here
    [None], and nothing is stored. *)
Definition add_commit_refresh (account name type : string)
  (max_conn : Z) (st : AgentStatus) : M (option nat) :=
  t ← now;
  s ← get_state;
  let row := mkAIAgent (next_id (ai_agents s)) account name type st
               None None None 60 max_conn 0 0 0 None t in
  if insert_ok s row then
    put_state (set_ai_agents (ai_agents s ++ [row]) s);;
    agent ← load row;
    mret (Some agent)
  else mret None.

(** [await db.commit()] for the one object of the session. *)
Definition commit (r : nat) : M unit :=
  a ← read_obj r;
  s ← get_state;
  put_state
    (set_ai_agents
       (map (fun row => if decide (id row = id a) then a else row) (ai_agents s))
       s).

(** The session is closed when the request ends: the object is gone. *)
Definition close (r : nat) : M unit := fun s =>
  Some (tt, set_objs (delete r (objs s)) s).

(** [request.max_connections or 100] *)
Definition or_100 (o : option Z) : Z :=
  match o with
  | Some z => if Z.eqb z 0 then 100 else z
  | None => 100
  end.

(** The row that the registration handler adds for [request]:
    [AIAgent(account_id=..., status=AgentStatus.INACTIVE)] with the column
    defaults and the next key. *)
Definition new_row (request : AgentRegistrationRequest) (s : State)
  : AIAgent :=
  mkAIAgent (next_id (ai_agents s)) (rq_account_id request)
    (rq_agent_name request) (rq_agent_type request) INACTIVE None None None 60
    (or_100 (rq_max_connections request)) 0 0 0 None
    (utcnow s (clock_reads s)).

Definition register_agent (request : AgentRegistrationRequest)
  : M (Http RegistrationResponse) :=
  rows ← select_by_account_id (rq_account_id request);
  match scalar_one_or_none rows with
  | None => mret (Raise 500 "Failed to register agent")
  | Some (Some _) => mret (Raise 409 "Agent with this account ID already exists")
  | Some None =>
      added ← add_commit_refresh (rq_account_id request)
        (rq_agent_name request) (rq_agent_type request)
        (or_100 (rq_max_connections request)) INACTIVE;
      match added with
      | None => mret (Raise 500 "Failed to register agent")
      | Some agent =>
          topics ← AgentRegistry.create_agent_topics agent;
          registration_tx_id ← AgentRegistry.register_agent agent;
          when (truthy registration_tx_id)
            (update_obj agent
               (fun a => set_status ACTIVE
                           (set_registration_tx_id registration_tx_id a));;
             commit agent);;
          a ← read_obj agent;
          close agent;;
          mret (Return (mkRegistrationResponse (id a) (account_id a)
                          registration_tx_id (inbound_topic_id a)
                          (outbound_topic_id a)))
      end
  end.

Definition request_connection (from_agent_id to_agent_inbound_topic : string)
  : M (Http SendResponse) :=
  rows ← select_by_account_id from_agent_id;
  match scalar_one_or_none rows with
  | None => mret (Raise 500 "Failed to send connection request")
  | Some None => mret (Raise 404 "Requesting agent not found")
  | Some (Some row) =>
      from_agent ← load row;
      tx_id ← AgentRegistry.send_connection_request from_agent
        to_agent_inbound_topic;
      when (truthy tx_id) (commit from_agent);;
      close from_agent;;
      mret (Return (mkSendResponse
                      (if truthy tx_id then "success" else "failed") tx_id))
  end.

Definition send_message (from_agent_id connection_topic_id message_data : string)
  : M (Http SendResponse) :=
  rows ← select_by_account_id from_agent_id;
  match scalar_one_or_none rows with
  | None => mret (Raise 500 "Failed to send message")
  | Some None => mret (Raise 404 "Sending agent not found")
  | Some (Some row) =>
      from_agent ← load row;
      tx_id ← AgentRegistry.send_message from_agent connection_topic_id
        message_data;
      when (truthy tx_id) (commit from_agent);;
      close from_agent;;
      mret (Return (mkSendResponse
                      (if truthy tx_id then "success" else "failed") tx_id))
  end.

Definition request_transaction
  (from_agent_id connection_topic_id schedule_id transaction_data : string)
  : M (Http SendResponse) :=
  rows ← select_by_account_id from_agent_id;
  match scalar_one_or_none rows with
  | None => mret (Raise 500 "Failed to send transaction request")
  | Some None => mret (Raise 404 "Requesting agent not found")
  | Some (Some row) =>
      from_agent ← load row;
      tx_id ← AgentRegistry.send_transaction_request from_agent
        connection_topic_id schedule_id transaction_data;
      when (truthy tx_id)
        (call_increment_messages_sent from_agent;;
         commit from_agent);;
      close from_agent;;
      mret (Return (mkSendResponse
                      (if truthy tx_id then "success" else "failed") tx_id))
  end.

(** The fields of [AgentResponse] that are columns of the model above. *)
Record AgentResponse := mkAgentResponse {
  ar_id : nat;
  ar_account_id : string;
  ar_agent_name : string;
  ar_agent_type : string;
  ar_status : AgentStatus;
  ar_inbound_topic_id : option string;
  ar_outbound_topic_id : option string;
  ar_ttl : Z;
  ar_max_connections : Z;
  ar_active_connections : Z;
  ar_last_activity : option Z
}.

(** [AgentResponse(id=agent.id, ...)]; a [datetime] is always truthy, so
    [last_activity] is reported whenever the column holds one. *)
Definition agent_response (agent : AIAgent) : AgentResponse :=
  mkAgentResponse (id agent) (account_id agent) (agent_name agent)
    (agent_type agent) (status agent) (inbound_topic_id agent)
    (outbound_topic_id agent) (ttl agent) (max_connections agent)
    (active_connections agent) (Some (last_activity agent)).

Definition get_agent (account_id : string) : M (Http AgentResponse) :=
  rows ← select_by_account_id account_id;
  match scalar_one_or_none rows with
  | None => mret (Raise 500 "Failed to retrieve agent")
  | Some None => mret (Raise 404 "Agent not found")
  | Some (Some agent) => mret (Return (agent_response agent))
  end.

End Api.

(** The constraints of the [ai_agents] table: [id] is the primary key and
    [account_id] is declared unique. *)
Definition table_ok (rows : list AIAgent) : Prop :=
  NoDup (map id rows) /\ NoDup (map account_id rows).

(** The key and the account id of a row. *)
Definition row_key (a : AIAgent) : nat * string := (id a, account_id a).

(** [same_agents rows rows']: [rows'] holds the agents of [rows] and no
    other, each in place, under the same key and account id. *)
Definition same_agents (rows rows' : list AIAgent) : Prop :=
  map row_key rows' = map row_key rows.

(** ** Sequences of protocol operations *)

(** One call of an [AgentRegistry] method, with its arguments. *)
Inductive Operation :=
| InitializeRegistry
| RegisterAgent (agent : nat)
| DeleteAgent (agent : nat) (uid : string)
| CreateAgentTopics (agent : nat)
| SendConnectionRequest (from_agent : nat) (to_agent_inbound_topic : string)
| CreateConnectionTopic (agent_a agent_b : nat) (connection_id : Z)
| NotifyConnectionCreated (to_agent from_agent : nat)
    (connection_topic_id : option string) (connection_id : Z)
| SendMessage (from_agent : nat) (connection_topic_id message_data : string)
| SendTransactionRequest (from_agent : nat)
    (connection_topic_id schedule_id transaction_data : string).

Definition run_operation (o : Operation) : M unit :=
  match o with
  | InitializeRegistry => AgentRegistry.initialize_registry;; mret tt
  | RegisterAgent r => AgentRegistry.register_agent r;; mret tt
  | DeleteAgent r uid => AgentRegistry.delete_agent r uid;; mret tt
  | CreateAgentTopics r => AgentRegistry.create_agent_topics r;; mret tt
  | SendConnectionRequest r t =>
      AgentRegistry.send_connection_request r t;; mret tt
  | CreateConnectionTopic a b c =>
      AgentRegistry.create_connection_topic a b c;; mret tt
  | NotifyConnectionCreated t f c i =>
      AgentRegistry._notify_connection_created t f c i;; mret tt
  | SendMessage r t d => AgentRegistry.send_message r t d;; mret tt
  | SendTransactionRequest r t i d =>
      AgentRegistry.send_transaction_request r t i d;; mret tt
  end.

Fixpoint run (os : list Operation) : M unit :=
  match os with
  | [] => mret tt
  | o :: os' => run_operation o;; run os'
  end.

(** The operation is a [register] call on the object at [r]. *)
Definition registers (r : nat) (o : Operation) : bool :=
  match o with
  | RegisterAgent r' => Nat.eqb r r'
  | _ => false
  end.

(** The operation posts ConnectionCreated notifications. *)
Definition notifies (o : Operation) : bool :=
  match o with
  | CreateConnectionTopic _ _ _ | NotifyConnectionCreated _ _ _ _ => true
  | _ => false
  end.

(** The operation is a send by the object at [r]. *)
Definition sends_from (r : nat) (o : Operation) : bool :=
  match o with
  | SendConnectionRequest r' _ | SendMessage r' _ _
  | SendTransactionRequest r' _ _ _ => Nat.eqb r r'
  | _ => false
  end.

(** The submissions that returned a transaction id. *)
Definition accepted (l : list Submission) : list Submission :=
  filter (fun m => truthy (sm_result m) = true) l.

(** Every live agent has [active_connections <= max_connections]. *)
Definition within_capacity (s : State) : Prop :=
  forall r a, objs s !! r = Some a -> active_connections a <= max_connections a.

(** ** Sample worlds *)

(** The values of SQLite's INTEGER, the database of the default
    [DATABASE_URL]: signed, 64 bits. *)
Definition int64 (z : Z) : bool := (- 2 ^ 63 <=? z) && (2 ^ 63 >? z).

(** SQLite accepts a new row when its integer fits. *)
Definition sqlite_insert_ok (row : AIAgent) : bool :=
  int64 (max_connections row).

(** Without the SDK ([Client is None]) every [create_topic] returns
    ["0.0.999999"] and every [submit_message] the same transaction id. *)
Definition mock_world (os : gmap nat AIAgent) (rows : list AIAgent) : State :=
  mkState (fun _ => Some "0.0.999999")
          (fun _ => Some "0.0.123456@1234567890.123456789")
          (fun n => Z.of_nat n) [] [] 0 None os rows sqlite_insert_ok.

(** A service that is down: every call returns [None]. *)
Definition dead_world (os : gmap nat AIAgent) (rows : list AIAgent) : State :=
  mkState (fun _ => None) (fun _ => None) (fun n => Z.of_nat n)
          [] [] 0 None os rows sqlite_insert_ok.

(** Topic creation fails once, then succeeds; appends succeed. *)
Definition flaky_world (os : gmap nat AIAgent) (rows : list AIAgent) : State :=
  mkState (fun n => match n with O => None | _ => Some "0.0.7" end)
          (fun _ => Some "tx") (fun n => Z.of_nat n) [] [] 0 None os rows
          sqlite_insert_ok.

Definition agent_A : AIAgent :=
  mkAIAgent 1 "0.0.100" "A" "general_purpose" ACTIVE None
    (Some "0.0.101") (Some "0.0.102") 60 1 0 0 0 (Some "tx-a") 0.

Definition agent_B : AIAgent :=
  mkAIAgent 2 "0.0.200" "B" "general_purpose" ACTIVE None
    (Some "0.0.201") (Some "0.0.202") 60 100 0 0 0 (Some "tx-b") 0.

(** A fresh row, as the registration handler stores it. *)
Definition agent_N : AIAgent :=
  mkAIAgent 3 "0.0.300" "N" "general_purpose" INACTIVE None
    None None 60 100 0 0 0 None 0.

(** The registry topic is configured, topic creation is down, appends
    succeed. *)
Definition no_topics_world (os : gmap nat AIAgent) (rows : list AIAgent)
  : State :=
  mkState (fun _ => None) (fun _ => Some "tx") (fun n => Z.of_nat n)
          [] [] 0 (Some "0.0.1") os rows sqlite_insert_ok.

Definition request_N : Api.AgentRegistrationRequest :=
  Api.mkAgentRegistrationRequest "N" "general_purpose" "0.0.300" None.

(** A record that was deregistered. *)
Definition agent_D : AIAgent :=
  mkAIAgent 4 "0.0.400" "D" "general_purpose" DELETED None
    (Some "0.0.401") (Some "0.0.402") 60 100 0 0 0 (Some "tx-d") 0.

Definition two_agents : gmap nat AIAgent :=
  <[1%nat := agent_A]> (<[2%nat := agent_B]> ∅).

(** The row that [/agents/register] stores for [request_N] when topic
    creation is down and the registry topic is configured: Active, without
    topics. *)
Definition agent_T : AIAgent :=
  mkAIAgent 1 "0.0.300" "N" "general_purpose" ACTIVE None
    None None 60 100 0 0 0 (Some "tx") 0.

(** Topic creation succeeds; the first append is accepted and every later
    one refused. *)
Definition one_append_world (os : gmap nat AIAgent) (rows : list AIAgent)
  : State :=
  mkState (fun _ => Some "0.0.7")
          (fun n => match n with O => Some "tx" | _ => None end)
          (fun n => Z.of_nat n) [] [] 0 None os rows sqlite_insert_ok.

(** [keeps P m]: [m] frees no object and takes the object at every
    reference [r] to one related to it by [P r]. *)
Definition keeps (P : nat -> AIAgent -> AIAgent -> Prop) {A} (m : M A) : Prop :=
  forall s x s', m s = Some (x, s') ->
  forall r a, objs s !! r = Some a ->
  exists a', objs s' !! r = Some a' /\ P r a a'.

(** [kept_by P o]: the updates special to [o], a registration or the
    counting of a notification, keep [P]. *)
Definition kept_by (P : nat -> AIAgent -> AIAgent -> Prop) (o : Operation)
  : Prop :=
  (forall r, registers r o = true ->
     forall a tx, P r a (set_status ACTIVE (set_registration_tx_id tx a))) /\
  (notifies o = true ->
     (forall r a n, P r a (increment_messages_received n a)) /\
     (forall r a,
        P r a (set_active_connections (active_connections a + 1) a))).

(** * Properties *)

(** ** Reasoning about computations *)

Lemma bind_Some {A B} (m : M A) (f : A -> M B) s y s' :
  (m ≫= f) s = Some (y, s') <->
  exists x s1, m s = Some (x, s1) /\ f x s1 = Some (y, s').
Proof.
  unfold mbind, M_bind. split.
  - destruct (m s) as [[x s1]|]; [eauto | discriminate].
  - intros (x & s1 & -> & H). exact H.
Qed.

Lemma bind_step {A B} (m : M A) (f : A -> M B) s x s1 :
  m s = Some (x, s1) -> (m ≫= f) s = f x s1.
Proof. unfold mbind, M_bind. now intros ->. Qed.

Lemma ret_Some {A} (x y : A) s s' :
  mret (M := M) x s = Some (y, s') <-> x = y /\ s = s'.
Proof. unfold mret, M_ret. split; [intros [= -> ->] | intros [-> ->]]; auto. Qed.

(** A reflexive and transitive relation between the earlier and the later
    value of each object is kept by a computation as soon as each of its
    updates keeps it. *)
Section Keeps.
Variable P : nat -> AIAgent -> AIAgent -> Prop.
Hypothesis P_refl : forall r a, P r a a.
Hypothesis P_trans : forall r a b c, P r a b -> P r b c -> P r a c.

Local Abbreviation keeps := (keeps P).

Lemma keeps_ret {A} (x : A) : keeps (mret x).
Proof. intros s y s' [_ <-]%ret_Some r a Hr. eauto. Qed.

Lemma keeps_bind {A B} (m : M A) (f : A -> M B) :
  keeps m -> (forall x, keeps (f x)) -> keeps (m ≫= f).
Proof.
  intros Hm Hf s y s' (x & s1 & H1 & H2)%bind_Some r a Hr.
  destruct (Hm _ _ _ H1 _ _ Hr) as (a1 & Hr1 & Pa1).
  destruct (Hf _ _ _ _ H2 _ _ Hr1) as (a2 & Hr2 & Pa2).
  eauto.
Qed.

Lemma keeps_same_objs {A} (m : M A) :
  (forall s x s', m s = Some (x, s') -> objs s' = objs s) -> keeps m.
Proof. intros H s x s' Hm r a Hr. rewrite (H _ _ _ Hm). eauto. Qed.

Lemma keeps_read_obj r : keeps (read_obj r).
Proof.
  apply keeps_same_objs. unfold read_obj. intros s x s'.
  destruct (objs s !! r); [intros [= _ <-] | discriminate]. reflexivity.
Qed.

Lemma keeps_now : keeps now.
Proof. apply keeps_same_objs. intros s x s' [= _ <-]. reflexivity. Qed.

Lemma keeps_create_topic memo k : keeps (HederaClient.create_topic memo k).
Proof. apply keeps_same_objs. intros s x s' [= _ <-]. reflexivity. Qed.

Lemma keeps_submit_message t p memo :
  keeps (HederaClient.submit_message t p memo).
Proof. apply keeps_same_objs. intros s x s' [= _ <-]. reflexivity. Qed.

Lemma keeps_get_registry_topic : keeps AgentRegistry.get_registry_topic.
Proof. apply keeps_same_objs. intros s x s' [= _ <-]. reflexivity. Qed.

Lemma keeps_put_registry_topic v : keeps (AgentRegistry.put_registry_topic v).
Proof. apply keeps_same_objs. intros s x s' [= _ <-]. reflexivity. Qed.

Lemma keeps_update_obj r f :
  (forall a, P r a (f a)) -> keeps (update_obj r f).
Proof.
  intros Hf s x s'. unfold update_obj.
  destruct (objs s !! r) as [a0|] eqn:E; [intros [= _ <-] | discriminate].
  intros r' a Hr'. cbn. destruct (decide (r = r')) as [<-|Hne].
  - rewrite lookup_insert_eq. replace a with a0 by congruence. eauto.
  - rewrite lookup_insert_ne by done. eauto.
Qed.

Lemma keeps_when c (m : M unit) : keeps m -> keeps (when c m).
Proof. destruct c; cbn; [auto | intros _; apply keeps_ret]. Qed.

Lemma keeps_if {A} (c : bool) (m1 m2 : M A) :
  keeps m1 -> keeps m2 -> keeps (if c then m1 else m2).
Proof. destruct c; auto. Qed.

Local Hint Resolve keeps_ret keeps_read_obj keeps_now keeps_create_topic
  keeps_submit_message keeps_get_registry_topic keeps_put_registry_topic
  keeps_update_obj keeps_when keeps_if : core.

Local Ltac keeps_steps :=
  repeat first [ apply keeps_bind; [ | intros ? ] | apply keeps_when
               | apply keeps_if | apply keeps_update_obj; intros ];
  auto.

Lemma keeps_initialize_registry : keeps AgentRegistry.initialize_registry.
Proof. unfold AgentRegistry.initialize_registry. keeps_steps. Qed.

Lemma keeps_register_agent r :
  (forall a tx, P r a (set_status ACTIVE (set_registration_tx_id tx a))) ->
  keeps (AgentRegistry.register_agent r).
Proof.
  intros H. unfold AgentRegistry.register_agent. keeps_steps.
Qed.

Lemma keeps_delete_agent r uid :
  (forall a, P r a (set_status DELETED a)) ->
  keeps (AgentRegistry.delete_agent r uid).
Proof. intros H. unfold AgentRegistry.delete_agent. keeps_steps. Qed.

Lemma keeps_create_agent_topics r :
  (forall a v, P r a (set_inbound_topic_id v a)) ->
  (forall a v, P r a (set_outbound_topic_id v a)) ->
  keeps (AgentRegistry.create_agent_topics r).
Proof. intros H1 H2. unfold AgentRegistry.create_agent_topics. keeps_steps. Qed.

Lemma keeps_call_increment_messages_sent r :
  (forall a t, P r a (increment_messages_sent t a)) ->
  keeps (call_increment_messages_sent r).
Proof. intros H. unfold call_increment_messages_sent. keeps_steps. Qed.

Lemma keeps_call_increment_messages_received r :
  (forall a t, P r a (increment_messages_received t a)) ->
  keeps (call_increment_messages_received r).
Proof. intros H. unfold call_increment_messages_received. keeps_steps. Qed.

Lemma keeps_send_connection_request r t :
  (forall a t, P r a (increment_messages_sent t a)) ->
  keeps (AgentRegistry.send_connection_request r t).
Proof.
  intros H. unfold AgentRegistry.send_connection_request. keeps_steps.
Qed.

Lemma keeps_send_message r t d :
  (forall a t, P r a (increment_messages_sent t a)) ->
  keeps (AgentRegistry.send_message r t d).
Proof.
  intros H. unfold AgentRegistry.send_message. keeps_steps.
Qed.

Lemma keeps_send_transaction_request r t i d :
  (forall a t, P r a (increment_messages_sent t a)) ->
  keeps (AgentRegistry.send_transaction_request r t i d).
Proof.
  intros H. unfold AgentRegistry.send_transaction_request. keeps_steps.
Qed.

Lemma keeps_notify_connection_created t f c i :
  (forall a n, P t a (increment_messages_received n a)) ->
  (forall a, P t a (set_active_connections (active_connections a + 1) a)) ->
  keeps (AgentRegistry._notify_connection_created t f c i).
Proof.
  intros H1 H2. unfold AgentRegistry._notify_connection_created. keeps_steps.
Qed.

Lemma keeps_create_connection_topic a b i :
  (forall r x n, P r x (increment_messages_received n x)) ->
  (forall r x, P r x (set_active_connections (active_connections x + 1) x)) ->
  keeps (AgentRegistry.create_connection_topic a b i).
Proof.
  intros H1 H2. unfold AgentRegistry.create_connection_topic. keeps_steps.
Qed.

(** One operation, then a sequence of them. *)
Local Abbreviation kept_by := (kept_by P).

Hypothesis P_deleted : forall r a, P r a (set_status DELETED a).
Hypothesis P_inbound : forall r a v, P r a (set_inbound_topic_id v a).
Hypothesis P_outbound : forall r a v, P r a (set_outbound_topic_id v a).
Hypothesis P_sent : forall r a t, P r a (increment_messages_sent t a).

Lemma keeps_run_operation o : kept_by o -> keeps (run_operation o).
Proof.
  intros [Hreg Hnot]. destruct o; cbn [run_operation];
    (apply keeps_bind; [ | intros ?; apply keeps_ret]).
  - apply keeps_initialize_registry.
  - apply keeps_register_agent. apply Hreg. cbn. apply Nat.eqb_refl.
  - now apply keeps_delete_agent.
  - now apply keeps_create_agent_topics.
  - now apply keeps_send_connection_request.
  - destruct (Hnot eq_refl). now apply keeps_create_connection_topic.
  - destruct (Hnot eq_refl). now apply keeps_notify_connection_created.
  - now apply keeps_send_message.
  - now apply keeps_send_transaction_request.
Qed.

Lemma keeps_run os : Forall kept_by os -> keeps (run os).
Proof.
  induction 1 as [|o os Ho _ IH]; cbn [run].
  - apply keeps_ret.
  - apply keeps_bind; [now apply keeps_run_operation | intros ?; exact IH].
Qed.
End Keeps.

(** ** Unfolding a computation on a known store *)

Ltac run_m :=
  unfold AgentRegistry.send_message, AgentRegistry.send_transaction_request,
    AgentRegistry.send_connection_request, AgentRegistry.create_agent_topics,
    AgentRegistry._notify_connection_created, AgentRegistry.register_agent,
    AgentRegistry.delete_agent, AgentRegistry.initialize_registry,
    AgentRegistry.create_connection_topic,
    AgentRegistry.get_registry_topic, AgentRegistry.put_registry_topic,
    call_increment_messages_sent, call_increment_messages_received,
    HederaClient.submit_message, HederaClient.create_topic,
    when, now, read_obj, update_obj, mbind, M_bind, mret, M_ret in *;
  cbn [objs topics messages clock_reads registry_topic ai_agents create_reply
       submit_reply utcnow insert_ok set_objs set_topics set_messages
       set_clock_reads set_registry_topic set_ai_agents] in *.

Ltac run_steps :=
  repeat progress
    (run_m; cbn;
     repeat match goal with
            | H : objs ?s !! ?r = Some _ |- context [objs ?s !! ?r] => rewrite H
            | H : truthy ?x = _ |- context [truthy ?x] => rewrite H
            end;
     rewrite ?lookup_insert_eq, ?length_app, ?Nat.add_1_r; cbn).

(** ** Message router *)

(** C6. [send_message] always submits the Message envelope; when the
    append returns a transaction id the sender's [messages_sent] grows by
    exactly 1 and [last_activity] becomes the current time, and when it
    fails no record of the store or of the table changes. *)
Theorem send_message_counts_on_success_only s r a topic data :
  objs s !! r = Some a ->
  let tx := submit_reply s (length (messages s)) in
  exists s',
    AgentRegistry.send_message r topic data s = Some (tx, s') /\
    messages s' = messages s ++
      [mkSubmission (Some topic)
         (OpMessage (AgentRegistry.operator_id a) data "Standard communication.")
         (Some "hcs-10:op:6:3") tx] /\
    ai_agents s' = ai_agents s /\
    (truthy tx = true ->
       exists a', objs s' !! r = Some a' /\
         a' = increment_messages_sent (utcnow s (clock_reads s)) a /\
         messages_sent a' = messages_sent a + 1 /\
         last_activity a' = utcnow s (clock_reads s)) /\
    (truthy tx = false -> objs s' = objs s).
Proof.
  intros Hr tx. run_m. rewrite Hr. cbn. fold tx.
  destruct (truthy tx) eqn:Etx; cbn; run_m.
  - rewrite Hr. eexists. repeat split; try discriminate.
    intros _. cbn. rewrite lookup_insert_eq. eauto.
  - eexists. repeat split; try discriminate.
Qed.

Lemma send_message_counts_on_success_only_witness :
  exists s',
    AgentRegistry.send_message 1 "0.0.300" "hello" (mock_world two_agents [])
      = Some (Some "0.0.123456@1234567890.123456789", s') /\
    exists a', objs s' !! 1%nat = Some a' /\ messages_sent a' = 1.
Proof.
  destruct (send_message_counts_on_success_only (mock_world two_agents [])
              1 agent_A "0.0.300" "hello" eq_refl)
    as (s' & Hrun & _ & _ & Hok & _).
  exists s'. split; [exact Hrun|].
  destruct (Hok eq_refl) as (a' & Ha' & _ & Hsent & _).
  exists a'. split; [exact Ha' | exact Hsent].
Defined.

(** The registry's [send_transaction_request] submits a Transaction
    envelope carrying the given [schedule_id] and counts it once. *)
Lemma send_transaction_request_counts_once s r a topic schedule data :
  objs s !! r = Some a ->
  let tx := submit_reply s (length (messages s)) in
  exists s',
    AgentRegistry.send_transaction_request r topic schedule data s
      = Some (tx, s') /\
    messages s' = messages s ++
      [mkSubmission (Some topic)
         (OpTransaction (AgentRegistry.operator_id a) schedule data
            "For your approval.")
         (Some "hcs-10:op:7:3") tx] /\
    (truthy tx = true ->
       objs s' !! r
         = Some (increment_messages_sent (utcnow s (clock_reads s)) a)) /\
    (truthy tx = false -> objs s' = objs s).
Proof.
  intros Hr tx. run_m. rewrite Hr. cbn. fold tx.
  destruct (truthy tx) eqn:Etx; cbn; run_m.
  - rewrite Hr. eexists. repeat split; try discriminate.
    intros _. cbn. now rewrite lookup_insert_eq.
  - eexists. repeat split; try discriminate.
Qed.

(** C7. Through the [/transactions/request] handler a successful
    transaction request is counted twice: the registry increments
    [messages_sent] and the handler increments it again before the commit.
    Agent A starts at 0 and its committed row ends at 2, with one
    Transaction envelope posted. *)
Theorem request_transaction_counts_twice :
  messages_sent agent_A = 0 /\
  option_map
    (fun '(res, s') =>
       (res, map messages_sent (ai_agents s'), map sm_message (messages s')))
    (Api.request_transaction "0.0.100" "0.0.300" "0.0.555" "pay"
       (mock_world ∅ [agent_A]))
  = Some (Api.Return (Api.mkSendResponse "success"
                        (Some "0.0.123456@1234567890.123456789")),
          [2],
          [OpTransaction "0.0.100@0.0.101" "0.0.555" "pay"
             "For your approval."]).
Proof. split; [reflexivity | vm_compute; reflexivity]. Qed.

(** The sibling [/messages/send] handler counts a message once. *)
Lemma api_send_message_counts_once :
  option_map
    (fun '(res, s') => map messages_sent (ai_agents s'))
    (Api.send_message "0.0.100" "0.0.300" "hello" (mock_world ∅ [agent_A]))
  = Some [1].
Proof. vm_compute; reflexivity. Qed.

(** ** Connection protocol *)

(** [agent_T] is a stored agent: the handler stores it where topic
    creation is down and the registry topic is configured. *)
Lemma agent_T_is_registered :
  option_map (fun '(_, s') => ai_agents s')
    (Api.register_agent request_N (no_topics_world ∅ []))
  = Some [agent_T].
Proof. vm_compute. reflexivity. Qed.

(** C8, as stated, fails: an Active agent need not have an outbound topic,
    and without one its connection request appends nothing. *)
Lemma active_requester_posts_nothing :
  ~ (forall s r a target,
       objs s !! r = Some a -> status a = ACTIVE ->
       exists tx s' sub,
         AgentRegistry.send_connection_request r target s = Some (tx, s') /\
         messages s' = messages s ++ [sub] /\
         sm_topic_id sub = Some target /\
         op_of (sm_message sub) = "connection_request").
Proof.
  intros H.
  assert (Hr : objs (mock_world {[ 1%nat := agent_T ]} []) !! 1%nat
               = Some agent_T) by (vm_compute; reflexivity).
  destruct (H _ 1%nat agent_T "0.0.201" Hr eq_refl)
    as (tx & s' & sub & Hrun & Hmsg & _).
  vm_compute in Hrun. injection Hrun as _ <-.
  cbn in Hmsg. discriminate Hmsg.
Qed.

(** C8, amended.  What decides is the outbound topic, not the status.  A
    requester that has an outbound topic, whatever its status, appends one
    ConnectionRequest envelope to the target's inbound topic; its
    [operator_id] is [account_id@inbound_topic_id], with the text [None]
    for an unset inbound topic, and [messages_sent] grows by exactly 1
    when the append returns a transaction id and stays otherwise.  A
    requester without outbound topic appends nothing and gets [None]. *)
Theorem send_connection_request_envelope :
  (forall s r a target,
     objs s !! r = Some a ->
     truthy (outbound_topic_id a) = true ->
     let tx := submit_reply s (length (messages s)) in
     exists s' a',
       AgentRegistry.send_connection_request r target s = Some (tx, s') /\
       messages s' = messages s ++
         [mkSubmission (Some target)
            (OpConnectionRequest
               (account_id a +:+ "@" +:+ fmt_opt (inbound_topic_id a))
               ("Requesting connection from " +:+ agent_name a))
            (Some "hcs-10:op:3:1") tx] /\
       objs s' !! r = Some a' /\
       messages_sent a' = messages_sent a + (if truthy tx then 1 else 0)) /\
  (forall s r a target,
     objs s !! r = Some a ->
     truthy (outbound_topic_id a) = false ->
     AgentRegistry.send_connection_request r target s = Some (None, s)).
Proof.
  split.
  - intros s r a target Hr Hout tx. run_steps. fold tx.
    destruct (truthy tx) eqn:Etx; run_steps; do 2 eexists;
      (split; [reflexivity|]); cbn; (split; [reflexivity|]);
      rewrite ?lookup_insert_eq; (split; [try reflexivity; eassumption|]);
      cbn; lia.
  - intros s r a target Hr Hout. run_steps. reflexivity.
Qed.

Lemma send_connection_request_envelope_witness :
  (exists s' a',
     AgentRegistry.send_connection_request 1 "0.0.201"
       (mock_world two_agents []) =
       Some (Some "0.0.123456@1234567890.123456789", s') /\
     messages s' =
       [mkSubmission (Some "0.0.201")
          (OpConnectionRequest "0.0.100@0.0.101"
             "Requesting connection from A")
          (Some "hcs-10:op:3:1") (Some "0.0.123456@1234567890.123456789")] /\
     objs s' !! 1%nat = Some a' /\ messages_sent a' = 1) /\
  AgentRegistry.send_connection_request 1 "0.0.201"
    (mock_world {[ 1%nat := agent_T ]} [])
  = Some (None, mock_world {[ 1%nat := agent_T ]} []).
Proof.
  split.
  - destruct (proj1 send_connection_request_envelope
                (mock_world two_agents []) 1%nat agent_A "0.0.201"
                eq_refl eq_refl)
      as (s' & a' & Hrun & Hmsg & Ha' & Hsent).
    exists s', a'. repeat split; assumption.
  - apply (proj2 send_connection_request_envelope
             (mock_world {[ 1%nat := agent_T ]} []) 1%nat agent_T "0.0.201");
      vm_compute; reflexivity.
Defined.

(** ** Directory *)

(** C10. [create_agent_topics] always makes both [create_topic] calls,
    inbound first; each topic id of the agent is assigned exactly when its
    own call returned a topic id, and is otherwise left as it was.  A
    failed inbound creation followed by a successful outbound one leaves
    a record with the outbound topic only. *)
Theorem create_agent_topics_independent :
  (forall s r a,
     objs s !! r = Some a ->
     let rin := create_reply s (length (topics s)) in
     let rout := create_reply s (S (length (topics s))) in
     exists s' a',
       AgentRegistry.create_agent_topics r s =
         Some ((if truthy rin then rin else None,
                if truthy rout then rout else None), s') /\
       topics s' = topics s ++
         [mkTopicCreate (Some (get_topic_memo a "inbound")) true rin;
          mkTopicCreate (Some (get_topic_memo a "outbound")) true rout] /\
       objs s' !! r = Some a' /\
       inbound_topic_id a' = (if truthy rin then rin else inbound_topic_id a) /\
       outbound_topic_id a' =
         (if truthy rout then rout else outbound_topic_id a)) /\
  (exists s r res s' a',
     AgentRegistry.create_agent_topics r s = Some (res, s') /\
     objs s' !! r = Some a' /\
     inbound_topic_id a' = None /\ outbound_topic_id a' = Some "0.0.7").
Proof.
  split.
  - intros s r a Hr rin rout. run_steps. fold rin.
    destruct (truthy rin) eqn:Ein; run_steps; fold rout;
      destruct (truthy rout) eqn:Eout; run_steps;
      do 2 eexists; rewrite <- app_assoc;
      (split; [reflexivity|]); cbn; rewrite ?lookup_insert_eq;
      repeat split; eassumption.
  - exists (flaky_world {[ 3%nat := agent_N ]} []), 3%nat.
    do 3 eexists. vm_compute. repeat split.
Qed.

Lemma create_agent_topics_independent_witness :
  exists s' a',
    AgentRegistry.create_agent_topics 3
      (flaky_world {[ 3%nat := agent_N ]} []) =
      Some ((None, Some "0.0.7"), s') /\
    objs s' !! 3%nat = Some a' /\
    inbound_topic_id a' = None /\ outbound_topic_id a' = Some "0.0.7".
Proof.
  assert (Hr : objs (flaky_world {[ 3%nat := agent_N ]} []) !! 3%nat
               = Some agent_N) by (vm_compute; reflexivity).
  destruct (proj1 create_agent_topics_independent _ _ _ Hr)
    as (s' & a' & Hrun & _ & Ha' & Hin & Hout).
  exists s', a'. repeat split; assumption.
Defined.

(** What the steps of a handshake leave behind. *)
Lemma send_connection_request_run s r a target :
  objs s !! r = Some a ->
  truthy (outbound_topic_id a) = true ->
  let tx := submit_reply s (length (messages s)) in
  AgentRegistry.send_connection_request r target s =
    Some (tx,
      set_messages
        (messages s ++
           [mkSubmission (Some target)
              (OpConnectionRequest (AgentRegistry.operator_id a)
                 ("Requesting connection from " +:+ agent_name a))
              (Some "hcs-10:op:3:1") tx])
        (if truthy tx
         then set_objs
                (<[r := increment_messages_sent (utcnow s (clock_reads s)) a]>
                   (objs s))
                (set_clock_reads (S (clock_reads s)) s)
         else s)).
Proof.
  intros Hr Hout tx. run_steps. fold tx.
  destruct (truthy tx) eqn:E; run_steps; reflexivity.
Qed.

Lemma notify_connection_created_run s t f T F c i :
  objs s !! t = Some T -> objs s !! f = Some F ->
  let tx := submit_reply s (length (messages s)) in
  AgentRegistry._notify_connection_created t f c i s =
    Some (tx,
      set_messages
        (messages s ++
           [mkSubmission (inbound_topic_id T)
              (OpConnectionCreated c (account_id F) (AgentRegistry.operator_id F)
                 i ("Connection established with " +:+ agent_name F))
              (Some "hcs-10:op:4:1") tx])
        (if truthy tx
         then set_objs
                (<[t := set_active_connections (active_connections T + 1)
                          (increment_messages_received
                             (utcnow s (clock_reads s)) T)]> (objs s))
                (set_clock_reads (S (clock_reads s)) s)
         else s)).
Proof.
  intros Ht Hf tx. run_steps. fold tx.
  destruct (truthy tx) eqn:E; run_steps; [|reflexivity].
  rewrite insert_insert_eq. reflexivity.
Qed.

(** C5. A handshake between two distinct agents in which every append and
    the topic creation succeed raises [active_connections] of each by
    exactly 1; the two ConnectionCreated envelopes, one on each inbound
    topic, carry the same connection id and the same connection topic. *)
Theorem full_handshake_counts_each_once s ra rb A B ib cid :
  ra <> rb ->
  objs s !! ra = Some A -> objs s !! rb = Some B ->
  truthy (outbound_topic_id A) = true ->
  inbound_topic_id B = Some ib ->
  let n := length (messages s) in
  let topic := create_reply s (length (topics s)) in
  truthy (submit_reply s n) = true ->
  truthy topic = true ->
  truthy (submit_reply s (S n)) = true ->
  truthy (submit_reply s (S (S n))) = true ->
  exists s' A' B' req mA mB,
    (AgentRegistry.send_connection_request ra ib;;
     AgentRegistry.create_connection_topic ra rb cid) s = Some (topic, s') /\
    objs s' !! ra = Some A' /\ objs s' !! rb = Some B' /\
    active_connections A' = active_connections A + 1 /\
    active_connections B' = active_connections B + 1 /\
    messages s' = messages s ++
      [req;
       mkSubmission (inbound_topic_id A)
         (OpConnectionCreated topic (account_id B) (AgentRegistry.operator_id B)
            cid mA) (Some "hcs-10:op:4:1") (submit_reply s (S n));
       mkSubmission (Some ib)
         (OpConnectionCreated topic (account_id A) (AgentRegistry.operator_id A)
            cid mB) (Some "hcs-10:op:4:1") (submit_reply s (S (S n)))] /\
    sm_topic_id req = Some ib /\ op_of (sm_message req) = "connection_request".
Proof.
  intros Hne HA HB Hout Hib n topic Hreq Htopic HnA HnB.
  pose proof (send_connection_request_run s ra A ib HA Hout) as Hrun1.
  cbn zeta in Hrun1. fold n in Hrun1. rewrite Hreq in Hrun1.
  erewrite bind_step by exact Hrun1.
  unfold AgentRegistry.create_connection_topic.
  erewrite bind_step; cycle 1.
  { unfold read_obj. cbn. rewrite lookup_insert_eq. reflexivity. }
  erewrite bind_step; cycle 1.
  { unfold HederaClient.create_topic. cbn. reflexivity. }
  fold topic. rewrite Htopic. cbn [when].
  match goal with |- context [(_ ≫= _) ?st] => set (s2 := st) end.
  assert (H2a : objs s2 !! ra
                = Some (increment_messages_sent (utcnow s (clock_reads s)) A))
    by (subst s2; cbn; apply lookup_insert_eq).
  assert (H2b : objs s2 !! rb = Some B)
    by (subst s2; cbn; rewrite lookup_insert_ne by done; exact HB).
  pose proof (notify_connection_created_run s2 ra rb _ _ topic cid H2a H2b)
    as Hn1.
  cbn zeta in Hn1.
  replace (submit_reply s2 (length (messages s2)))
    with (submit_reply s (S n)) in Hn1
    by (subst s2 n; cbn; now rewrite length_app, Nat.add_1_r).
  rewrite HnA in Hn1.
  match type of Hn1 with _ = Some (_, ?st) => set (s3 := st) in Hn1 end.
  assert (H3a : objs s3 !! ra
                = Some (set_active_connections (active_connections A + 1)
                          (increment_messages_received
                             (utcnow s2 (clock_reads s2))
                             (increment_messages_sent
                                (utcnow s (clock_reads s)) A))))
    by (subst s3; cbn; apply lookup_insert_eq).
  assert (H3b : objs s3 !! rb = Some B)
    by (subst s3; cbn; rewrite lookup_insert_ne by done; exact H2b).
  pose proof (notify_connection_created_run s3 rb ra _ _ topic cid H3b H3a)
    as Hn2.
  cbn zeta in Hn2.
  replace (submit_reply s3 (length (messages s3)))
    with (submit_reply s (S (S n))) in Hn2
    by (subst s3 s2 n; cbn; now rewrite !length_app, !Nat.add_1_r).
  rewrite HnB in Hn2.
  unfold mbind, M_bind. rewrite Hn1, Hn2. cbn [mret M_ret].
  do 6 eexists. split; [reflexivity|].
  cbn [objs set_objs set_messages messages].
  split; [rewrite lookup_insert_ne by done; exact H3a|].
  split; [apply lookup_insert_eq|].
  split; [reflexivity|]. split; [reflexivity|].
  split.
  { subst s3 s2. cbn. rewrite Hib, <- !app_assoc. reflexivity. }
  split; reflexivity.
Qed.

Lemma full_handshake_counts_each_once_witness :
  exists s' A' B',
    (AgentRegistry.send_connection_request 1 "0.0.201";;
     AgentRegistry.create_connection_topic 1 2 1)
      (mock_world two_agents []) = Some (Some "0.0.999999", s') /\
    objs s' !! 1%nat = Some A' /\ objs s' !! 2%nat = Some B' /\
    active_connections A' = 1 /\ active_connections B' = 1.
Proof.
  destruct (full_handshake_counts_each_once (mock_world two_agents [])
              1 2 agent_A agent_B "0.0.201" 1
              ltac:(discriminate) eq_refl eq_refl eq_refl eq_refl
              eq_refl eq_refl eq_refl eq_refl)
    as (s' & A' & B' & req & mA & mB & Hrun & HA & HB & HcA & HcB & _).
  exists s', A', B'. repeat split; assumption.
Defined.

(** ** Capacity *)

(** C2, as stated, fails: two connections to agent A, whose
    [max_connections] is 1, leave it with [active_connections = 2]. *)
Lemma capacity_bound_broken :
  ~ (forall os s s',
       within_capacity s -> run os s = Some (tt, s') -> within_capacity s').
Proof.
  intros H.
  set (os := [CreateConnectionTopic 1 2 1; CreateConnectionTopic 1 2 2]).
  set (w := mock_world two_agents []).
  assert (Hw : within_capacity w).
  { intros r a. subst w. cbn. unfold two_agents.
    rewrite !lookup_insert. repeat case_decide; intros [= <-]; cbn; lia. }
  destruct (run os w) as [[[] s']|] eqn:E; [|vm_compute in E; discriminate].
  specialize (H os w s' Hw E 1%nat).
  vm_compute in E. injection E as <-.
  specialize (H _ eq_refl). vm_compute in H. apply H. reflexivity.
Qed.

(** C2, amended. [_notify_connection_created] has no capacity check: it
    adds exactly 1 to the target's [active_connections] whenever the
    append returns a transaction id, whatever [max_connections] is, and 0
    when it fails.  No sequence of operations changes [max_connections]
    or lowers [active_connections], and a sequence without notifications
    leaves [active_connections] as it was. *)
Theorem connections_counted_without_capacity_check :
  (forall s t f T F c i,
     objs s !! t = Some T -> objs s !! f = Some F ->
     let tx := submit_reply s (length (messages s)) in
     exists s' T',
       AgentRegistry._notify_connection_created t f c i s = Some (tx, s') /\
       objs s' !! t = Some T' /\
       max_connections T' = max_connections T /\
       active_connections T' =
         active_connections T + (if truthy tx then 1 else 0)) /\
  (forall os s s' r a,
     run os s = Some (tt, s') -> objs s !! r = Some a ->
     exists a', objs s' !! r = Some a' /\
       max_connections a' = max_connections a /\
       active_connections a <= active_connections a' /\
       (forallb (fun o => negb (notifies o)) os = true ->
        active_connections a' = active_connections a)).
Proof.
  split.
  - intros s t f T F c i Ht Hf tx.
    rewrite (notify_connection_created_run s t f T F c i Ht Hf). fold tx.
    destruct (truthy tx); do 2 eexists; (split; [reflexivity|]); cbn;
      [rewrite lookup_insert_eq | rewrite Ht];
      (split; [reflexivity|]); cbn; split; try reflexivity; lia.
  - intros os s s' r a Hrun Hr.
    assert (H1 : keeps (fun _ x y =>
                   max_connections y = max_connections x /\
                   active_connections x <= active_connections y) (run os)).
    { apply keeps_run; try solve [intros; cbn; lia].
      apply Forall_forall. intros o _.
      split; intros; try split; intros; cbn; lia. }
    destruct (H1 _ _ _ Hrun _ _ Hr) as (a' & Ha' & Hmax & Hle).
    exists a'. repeat split; try assumption.
    intros Hnone.
    assert (H2 : keeps (fun _ x y => active_connections y = active_connections x)
                   (run os)).
    { apply keeps_run; try solve [intros; cbn; congruence].
      apply Forall_forall. intros o Ho. split; [intros; reflexivity|].
      rewrite forallb_forall in Hnone. apply list_elem_of_In in Ho.
      specialize (Hnone _ Ho). intros E. rewrite E in Hnone. discriminate. }
    destruct (H2 _ _ _ Hrun _ _ Hr) as (a2 & Ha2 & Heq).
    congruence.
Qed.

Lemma connections_counted_without_capacity_check_witness :
  exists s' T',
    AgentRegistry._notify_connection_created 1 2 (Some "0.0.300") 1
      (mock_world two_agents []) =
      Some (Some "0.0.123456@1234567890.123456789", s') /\
    objs s' !! 1%nat = Some T' /\ active_connections T' = 1.
Proof.
  destruct (proj1 connections_counted_without_capacity_check
              (mock_world two_agents []) 1%nat 2%nat agent_A agent_B
              (Some "0.0.300") 1 eq_refl eq_refl)
    as (s' & T' & Hrun & HT & _ & Hact).
  exists s', T'. repeat split; assumption.
Defined.

(** ** Lifecycle *)

(** What [register_agent] does once the registry topic is known. *)
Lemma register_agent_run s r a :
  objs s !! r = Some a ->
  truthy (registry_topic s) = true ->
  let tx := submit_reply s (length (messages s)) in
  AgentRegistry.register_agent r s =
    Some (tx,
      set_messages
        (messages s ++
           [mkSubmission (registry_topic s) (get_hcs10_register_payload a)
              (Some "hcs-10:op:0:0") tx])
        (if truthy tx
         then set_objs
                (<[r := set_status ACTIVE (set_registration_tx_id tx a)]>
                   (objs s)) s
         else s)).
Proof.
  intros Hr Hrt tx. run_steps. fold tx. destruct (truthy tx) eqn:E; run_steps; reflexivity.
Qed.

(** C9, as stated, fails: a later [register_agent] on a Deleted record
    makes it Active again. *)
Lemma deleted_is_not_terminal :
  ~ (forall os s s' r a a',
       objs s !! r = Some a -> status a = DELETED ->
       run os s = Some (tt, s') -> objs s' !! r = Some a' ->
       status a' = DELETED).
Proof.
  intros H.
  set (w := mock_world (<[4%nat := agent_D]> ∅) []).
  destruct (run [RegisterAgent 4] w) as [[[] s']|] eqn:E;
    [|vm_compute in E; discriminate].
  vm_compute in E. injection E as <-.
  specialize (H [RegisterAgent 4] w _ 4%nat agent_D
                (set_status ACTIVE
                   (set_registration_tx_id
                      (Some "0.0.123456@1234567890.123456789") agent_D))
                eq_refl eq_refl eq_refl eq_refl).
  discriminate H.
Qed.

(** C9, amended.  A Deleted record stays Deleted under every sequence of
    operations that holds no [register_agent] call on it: a second delete,
    topic creation, requests, notifications and sends never write
    [status].  A [register_agent] call on it whose append returns a
    transaction id sets it to Active. *)
Theorem deleted_until_registered_again :
  (forall os s s' r a,
     forallb (fun o => negb (registers r o)) os = true ->
     objs s !! r = Some a -> status a = DELETED ->
     run os s = Some (tt, s') ->
     exists a', objs s' !! r = Some a' /\ status a' = DELETED) /\
  (forall s r a,
     objs s !! r = Some a -> status a = DELETED ->
     truthy (registry_topic s) = true ->
     truthy (submit_reply s (length (messages s))) = true ->
     exists tx s' a',
       AgentRegistry.register_agent r s = Some (tx, s') /\
       objs s' !! r = Some a' /\ status a' = ACTIVE).
Proof.
  split.
  - intros os s s' r a Hnone Hr Hdel Hrun.
    assert (H : keeps (fun r' x y =>
                  r' = r -> status x = DELETED -> status y = DELETED)
                (run os)).
    { apply keeps_run; try solve [intros; cbn; auto].
      apply Forall_forall. intros o Ho. split; [|intros; split; intros; cbn; auto].
      intros r' Hreg a0 tx ->. 
      rewrite forallb_forall in Hnone. apply list_elem_of_In in Ho.
      specialize (Hnone _ Ho). rewrite Hreg in Hnone. discriminate. }
    destruct (H _ _ _ Hrun _ _ Hr) as (a' & Ha' & Hst). eauto.
  - intros s r a Hr _ Hrt Htx.
    rewrite (register_agent_run s r a Hr Hrt). cbn zeta. rewrite Htx.
    do 3 eexists. split; [reflexivity|]. cbn.
    rewrite lookup_insert_eq. split; reflexivity.
Qed.

Lemma deleted_until_registered_again_witness :
  exists s' a',
    run [DeleteAgent 4 "0.0.400"; SendMessage 4 "0.0.300" "bye"]
      (mock_world (<[4%nat := agent_D]> ∅) []) = Some (tt, s') /\
    objs s' !! 4%nat = Some a' /\ status a' = DELETED.
Proof.
  destruct (run [DeleteAgent 4 "0.0.400"; SendMessage 4 "0.0.300" "bye"]
              (mock_world (<[4%nat := agent_D]> ∅) []))
    as [[[] s']|] eqn:E; [|vm_compute in E; discriminate].
  assert (Hr : objs (mock_world (<[4%nat := agent_D]> ∅) []) !! 4%nat
               = Some agent_D) by (vm_compute; reflexivity).
  destruct (proj1 deleted_until_registered_again
              [DeleteAgent 4 "0.0.400"; SendMessage 4 "0.0.300" "bye"]
              (mock_world (<[4%nat := agent_D]> ∅) []) s' 4%nat agent_D
              eq_refl Hr eq_refl E) as (a' & Ha' & Hst).
  exists s', a'. repeat split; assumption.
Defined.

(** ** Registration through the API *)

Lemma create_agent_topics_run s r a :
  objs s !! r = Some a ->
  let rin := create_reply s (length (topics s)) in
  let rout := create_reply s (S (length (topics s))) in
  exists res s',
    AgentRegistry.create_agent_topics r s = Some (res, s') /\
    objs s' !! r =
      Some (let a1 := if truthy rin then set_inbound_topic_id rin a else a in
            if truthy rout then set_outbound_topic_id rout a1 else a1) /\
    ai_agents s' = ai_agents s.
Proof.
  intros Hr rin rout. run_steps. fold rin.
  destruct (truthy rin) eqn:Ein; run_steps; fold rout;
    destruct (truthy rout) eqn:Eout; run_steps;
    do 2 eexists; (split; [reflexivity|]); cbn; rewrite ?lookup_insert_eq;
    split; try reflexivity; assumption.
Qed.

Lemma register_agent_spec s r a :
  objs s !! r = Some a ->
  exists tx s',
    AgentRegistry.register_agent r s = Some (tx, s') /\
    objs s' !! r =
      Some (if truthy tx
            then set_status ACTIVE (set_registration_tx_id tx a) else a) /\
    ai_agents s' = ai_agents s /\
    (truthy tx = true ->
     exists sub, sub ∈ messages s' /\
       sm_message sub = get_hcs10_register_payload a /\ sm_result sub = tx).
Proof.
  intros Hr.
  assert (Hsub : forall (l : list Submission) x, x ∈ l ++ [x]).
  { intros l x. apply elem_of_app. right. now apply list_elem_of_singleton. }
  destruct (truthy (registry_topic s)) eqn:Ert; run_steps.
  - destruct (truthy (submit_reply s (length (messages s)))) eqn:Etx;
      run_steps; do 2 eexists; (split; [reflexivity|]); cbn;
      rewrite ?lookup_insert_eq, ?Etx; (split; [try reflexivity; assumption|]);
      (split; [reflexivity|]); intros; try discriminate; eexists;
      (split; [apply Hsub|]); split; reflexivity.
  - destruct (truthy (create_reply s (length (topics s)))) eqn:Ect; run_steps.
    + destruct (truthy (submit_reply s (length (messages s)))) eqn:Etx;
        run_steps; do 2 eexists; (split; [reflexivity|]); cbn;
        rewrite ?lookup_insert_eq, ?Etx; (split; [try reflexivity; assumption|]);
        (split; [reflexivity|]); intros; try discriminate; eexists;
        (split; [apply Hsub|]); split; reflexivity.
    + do 2 eexists. split; [reflexivity|]. cbn.
      split; [assumption|]. split; [reflexivity|]. discriminate.
Qed.

Lemma next_id_fresh rows : Forall (fun row => id row <> Api.next_id rows) rows.
Proof.
  unfold Api.next_id.
  assert (H : Forall (fun row => (id row <= foldr Nat.max 0 (map id rows))%nat)
                rows).
  { induction rows as [|x rows IH]; constructor; cbn.
    - lia.
    - eapply Forall_impl; [exact IH|]. cbn. intros; lia. }
  eapply Forall_impl; [exact H|]. cbn. intros; lia.
Qed.

(** The commit of a row that was just added rewrites that row only. *)
Lemma commit_new_row rows a row n :
  n = Api.next_id rows -> id row = n ->
  map (fun x => if decide (id x = n) then a else x) (rows ++ [row])
  = rows ++ [a].
Proof.
  intros Ha Hrow. rewrite map_app. cbn. rewrite decide_True by exact Hrow.
  f_equal. rewrite <- (map_id rows) at 2. apply map_ext_Forall.
  eapply Forall_impl; [apply next_id_fresh|]. cbn. intros x Hx.
  rewrite decide_False; [reflexivity | congruence].
Qed.

Lemma add_commit_refresh_run account name type mc st s :
  let row := mkAIAgent (Api.next_id (ai_agents s)) account name type st
               None None None 60 mc 0 0 0 None (utcnow s (clock_reads s)) in
  Api.add_commit_refresh account name type mc st s =
    Some (if insert_ok s row then Some (fresh (dom (objs s))) else None,
          if insert_ok s row
          then set_objs (<[fresh (dom (objs s)) := row]> (objs s))
                 (set_ai_agents (ai_agents s ++ [row])
                    (set_clock_reads (S (clock_reads s)) s))
          else set_clock_reads (S (clock_reads s)) s).
Proof.
  intros row. unfold Api.add_commit_refresh, now, mbind, M_bind, get_state.
  cbn [insert_ok set_clock_reads clock_reads utcnow ai_agents]. fold row.
  destruct (insert_ok s row); reflexivity.
Qed.

(** The state that [create_agent_topics] leaves. *)
Lemma create_agent_topics_state s r a :
  objs s !! r = Some a ->
  let rin := create_reply s (length (topics s)) in
  let rout := create_reply s (S (length (topics s))) in
  let a1 := if truthy rin then set_inbound_topic_id rin a else a in
  let a2 := if truthy rout then set_outbound_topic_id rout a1 else a1 in
  AgentRegistry.create_agent_topics r s =
    Some ((if truthy rin then rin else None,
           if truthy rout then rout else None),
          set_topics
            (topics s ++
               [mkTopicCreate (Some (get_topic_memo a "inbound")) true rin;
                mkTopicCreate (Some (get_topic_memo a "outbound")) true rout])
            (set_objs (<[r := a2]> (objs s)) s)).
Proof.
  intros Hr rin rout a1 a2. subst a1 a2. run_steps. fold rin.
  destruct (truthy rin) eqn:Ein; run_steps; fold rout;
    destruct (truthy rout) eqn:Eout; run_steps;
    unfold set_topics, set_objs; cbn;
    rewrite <- ?app_assoc, ?insert_insert_eq, ?(insert_id _ _ _ Hr);
    reflexivity.
Qed.

(** The state that [register_agent] leaves, whether or not the registry
    topic is set when it is called. *)
Lemma register_agent_state s r a :
  objs s !! r = Some a ->
  let c := create_reply s (length (topics s)) in
  let s1 :=
    if truthy (registry_topic s) then s
    else
      let s0 := set_topics
                  (topics s ++ [mkTopicCreate (Some "hcs-10:0:60:3:") true c])
                  s in
      if truthy c then set_registry_topic c s0 else s0 in
  let tx := if truthy (registry_topic s1)
            then submit_reply s (length (messages s)) else None in
  AgentRegistry.register_agent r s =
    Some (tx,
          if truthy (registry_topic s1)
          then set_messages
                 (messages s ++
                    [mkSubmission (registry_topic s1)
                       (get_hcs10_register_payload a)
                       (Some "hcs-10:op:0:0") tx])
                 (if truthy tx
                  then set_objs
                         (<[r := set_status ACTIVE
                                   (set_registration_tx_id tx a)]> (objs s)) s1
                  else s1)
          else s1).
Proof.
  intros Hr c s1 tx. subst s1 tx.
  destruct (truthy (registry_topic s)) eqn:Ert.
  - cbn zeta. rewrite Ert. rewrite (register_agent_run s r a Hr Ert).
    cbn zeta. reflexivity.
  - destruct (truthy c) eqn:Ec; subst c; cbn zeta; cbn [registry_topic set_registry_topic set_topics].
    + rewrite Ec. run_steps.
      destruct (truthy (submit_reply s (length (messages s)))) eqn:Etx;
        run_steps; reflexivity.
    + rewrite Ert. run_steps. reflexivity.
Qed.

(** A registration that the database refuses: the commit raises, the
    handler answers 500, and nothing is stored, created or posted. *)
Lemma api_register_agent_rejected s rq :
  filter (fun a => account_id a = Api.rq_account_id rq) (ai_agents s) = [] ->
  insert_ok s (Api.new_row rq s) = false ->
  Api.register_agent rq s =
    Some (Api.Raise 500 "Failed to register agent",
          set_clock_reads (S (clock_reads s)) s).
Proof.
  intros Hnew Hno. unfold Api.new_row in Hno. unfold Api.register_agent.
  erewrite bind_step by reflexivity. rewrite Hnew. cbn [Api.scalar_one_or_none].
  erewrite bind_step by apply add_commit_refresh_run. cbn zeta.
  rewrite Hno. reflexivity.
Qed.

Lemma length_app_two {A} (l : list A) x y :
  length (l ++ [x; y]) = S (S (length l)).
Proof. rewrite length_app. cbn. lia. Qed.

(** The registration handler on a new account id that the database
    accepts: [base] is the row of the first commit, [a2] the object after
    the two topic creations, [rt] the registry topic after the call and
    [tx] what the Register append returned. *)
Lemma api_register_agent_exact s rq :
  filter (fun a => account_id a = Api.rq_account_id rq) (ai_agents s) = [] ->
  let rin := create_reply s (length (topics s)) in
  let rout := create_reply s (S (length (topics s))) in
  let c := create_reply s (S (S (length (topics s)))) in
  let base := Api.new_row rq s in
  insert_ok s base = true ->
  let a2 :=
    set_outbound_topic_id (if truthy rout then rout else None)
      (set_inbound_topic_id (if truthy rin then rin else None) base) in
  let rt := if truthy (registry_topic s) then registry_topic s
            else if truthy c then c else registry_topic s in
  let tx := if truthy rt then submit_reply s (length (messages s)) else None in
  exists s',
    Api.register_agent rq s =
      Some (Api.Return
              (Api.mkRegistrationResponse (Api.next_id (ai_agents s))
                 (Api.rq_account_id rq) tx
                 (if truthy rin then rin else None)
                 (if truthy rout then rout else None)), s') /\
    ai_agents s' = ai_agents s ++
      [if truthy tx then set_status ACTIVE (set_registration_tx_id tx a2)
       else base] /\
    objs s' = objs s /\
    registry_topic s' = rt /\
    messages s' = messages s ++
      (if truthy rt
       then [mkSubmission rt (get_hcs10_register_payload base)
               (Some "hcs-10:op:0:0") tx]
       else []) /\
    topics s' = topics s ++
      [mkTopicCreate (Some (get_topic_memo base "inbound")) true rin;
       mkTopicCreate (Some (get_topic_memo base "outbound")) true rout] ++
      (if truthy (registry_topic s) then []
       else [mkTopicCreate (Some "hcs-10:0:60:3:") true c]).
Proof.
  intros Hnew rin rout c base Hok a2 rt tx. unfold Api.new_row in base.
  unfold Api.register_agent.
  erewrite bind_step by reflexivity. rewrite Hnew. cbn [Api.scalar_one_or_none].
  erewrite bind_step by apply add_commit_refresh_run. cbn zeta. fold base.
  rewrite Hok.
  pose proof (is_fresh (dom (objs s))) as Hfresh.
  apply not_elem_of_dom in Hfresh.
  set (r := fresh (dom (objs s))) in *. clearbody r.
  match goal with |- context [(_ ≫= _) ?st] => set (sA := st) end.
  assert (HA : objs sA !! r = Some base)
    by (subst sA; cbn; apply lookup_insert_eq).
  rewrite (bind_step _ _ _ _ _ (create_agent_topics_state sA r base HA)).
  cbn zeta.
  match goal with |- context [(_ ≫= _) ?st] => set (s2 := st) end.
  assert (Ho2 : objs s2 = <[r := a2]> (objs s)).
  { subst s2 sA a2. cbn. rewrite insert_insert_eq. f_equal.
    fold rin rout. destruct (truthy rin), (truthy rout); reflexivity. }
  assert (H2 : objs s2 !! r = Some a2)
    by (rewrite Ho2; apply lookup_insert_eq).
  assert (Hrt2 : registry_topic s2 = registry_topic s) by reflexivity.
  assert (Hm2 : messages s2 = messages s) by reflexivity.
  assert (Hd2 : ai_agents s2 = ai_agents s ++ [base]) by reflexivity.
  assert (Ht2 : topics s2 = topics s ++
            [mkTopicCreate (Some (get_topic_memo base "inbound")) true rin;
             mkTopicCreate (Some (get_topic_memo base "outbound")) true rout])
    by reflexivity.
  assert (Hs2 : submit_reply s2 = submit_reply s) by reflexivity.
  assert (Hc2 : create_reply s2 (length (topics s2)) = c)
    by (rewrite Ht2, length_app_two; reflexivity).
  rewrite (bind_step _ _ _ _ _ (register_agent_state s2 r a2 H2)).
  cbn zeta. clear HA. clearbody s2. clear sA.
  rewrite !Hc2, !Hrt2, !Hs2, !Hm2. subst rt tx.
  destruct (truthy (registry_topic s)) eqn:Ert;
    [|destruct (truthy c) eqn:Ec];
    cbn [registry_topic set_registry_topic set_topics];
    rewrite ?Hrt2, ?Ert, ?Ec;
    try (destruct (truthy (submit_reply s (length (messages s)))) eqn:Etx);
    unfold Api.commit, Api.close; run_steps;
    eexists; (split; [reflexivity|]); cbn;
    rewrite ?Hd2, ?Ho2, ?Hm2, ?Ht2, ?Hrt2, ?insert_insert_eq,
      ?(delete_insert_id _ _ _ Hfresh).
  all: try (erewrite commit_new_row by reflexivity).
  all: rewrite <- ?app_assoc, ?app_nil_r; repeat split.
Qed.



(** C1, as stated, fails: the second registration of an account id does
    not return the first result, it raises. *)
Lemma second_registration_raises :
  ~ (forall s rq r1 s1 r2 s2,
       Api.register_agent rq s = Some (r1, s1) ->
       Api.register_agent rq s1 = Some (r2, s2) ->
       r2 = r1).
Proof.
  intros H.
  destruct (Api.register_agent request_N (mock_world ∅ []))
    as [[r1 s1]|] eqn:E1; [|vm_compute in E1; discriminate].
  destruct (Api.register_agent request_N s1)
    as [[r2 s2]|] eqn:E2;
    [|vm_compute in E1; injection E1 as <- <-; vm_compute in E2; discriminate].
  specialize (H _ _ _ _ _ _ E1 E2).
  vm_compute in E1. injection E1 as <- <-.
  vm_compute in E2. injection E2 as <- <-.
  discriminate H.
Qed.

(** C1, amended.  After a registration that returned, a second
    registration with the same account id raises 409 Conflict and changes
    nothing: no row is added, no topic is created and nothing is posted;
    the table holds exactly one row for the account id. *)
Theorem second_registration_conflicts s rq rq' r1 s1 :
  Api.rq_account_id rq' = Api.rq_account_id rq ->
  Api.register_agent rq s = Some (Api.Return r1, s1) ->
  Api.register_agent rq' s1 =
    Some (Api.Raise 409 "Agent with this account ID already exists", s1) /\
  length (filter (fun a => account_id a = Api.rq_account_id rq) (ai_agents s1))
    = 1%nat.
Proof.
  intros Hacc Hrun.
  destruct (filter (fun a => account_id a = Api.rq_account_id rq) (ai_agents s))
    as [|x [|y l]] eqn:Hsel.
  - destruct (insert_ok s (Api.new_row rq s)) eqn:Hok.
    + destruct (api_register_agent_exact s rq Hsel Hok)
        as (s' & Hrun' & Htab & _).
      cbn zeta in Hrun', Htab.
      rewrite Hrun in Hrun'. injection Hrun' as _ ->.
      match type of Htab with _ = _ ++ [?x] => set (row := x) in * end.
      assert (Hrow : account_id row = Api.rq_account_id rq)
        by (subst row; destruct (truthy _); reflexivity).
      assert (Hsel' : filter (fun a => account_id a = Api.rq_account_id rq)
                        (ai_agents s') = [row]).
      { rewrite Htab, filter_app, Hsel.
        rewrite filter_cons_True by exact Hrow. reflexivity. }
      split; [|rewrite Hsel'; reflexivity].
      unfold Api.register_agent.
      erewrite bind_step by reflexivity. rewrite Hacc, Hsel'. reflexivity.
    + rewrite (api_register_agent_rejected s rq Hsel Hok) in Hrun.
      discriminate Hrun.
  - unfold Api.register_agent in Hrun.
    erewrite bind_step in Hrun by reflexivity.
    rewrite Hsel in Hrun. discriminate Hrun.
  - unfold Api.register_agent in Hrun.
    erewrite bind_step in Hrun by reflexivity.
    rewrite Hsel in Hrun. discriminate Hrun.
Qed.

Lemma second_registration_conflicts_witness :
  exists r1 s1,
    Api.register_agent request_N (mock_world ∅ []) = Some (Api.Return r1, s1) /\
    Api.register_agent request_N s1 =
      Some (Api.Raise 409 "Agent with this account ID already exists", s1) /\
    length (ai_agents s1) = 1%nat.
Proof.
  destruct (Api.register_agent request_N (mock_world ∅ []))
    as [[[c d|r1] s1]|] eqn:E; try (vm_compute in E; discriminate).
  exists r1, s1. split; [reflexivity|].
  destruct (second_registration_conflicts (mock_world ∅ []) request_N request_N
              r1 s1 eq_refl E) as [H2 _].
  split; [exact H2|].
  vm_compute in E. injection E as _ <-. reflexivity.
Defined.

(** ** The registry topic *)

(** X1. [initialize_registry] is idempotent: with a registry topic already
    set it returns that topic and touches nothing; a call that returned a
    topic id has stored it, so that the next call returns the same id
    without creating a topic; a call that returned nothing made one
    creation attempt and left the registry topic unset as it was. *)
Theorem initialize_registry_idempotent s :
  exists r s1,
    AgentRegistry.initialize_registry s = Some (r, s1) /\
    (truthy (registry_topic s) = true -> r = registry_topic s /\ s1 = s) /\
    (truthy r = true ->
       registry_topic s1 = r /\
       AgentRegistry.initialize_registry s1 = Some (r, s1)) /\
    (truthy r = false ->
       registry_topic s1 = registry_topic s /\
       length (topics s1) = S (length (topics s))).
Proof.
  destruct (truthy (registry_topic s)) eqn:Ert.
  - exists (registry_topic s), s. run_steps.
    repeat split; try congruence.
  - destruct (truthy (create_reply s (length (topics s)))) eqn:Ect.
    + do 2 eexists. run_steps. split; [reflexivity|].
      split; [discriminate|]. split; [|congruence].
      intros _. split; [reflexivity|]. run_steps. reflexivity.
    + do 2 eexists. run_steps. split; [reflexivity|].
      split; [discriminate|]. split; [congruence|].
      intros _. split; [reflexivity|]. cbn. now rewrite length_app, Nat.add_1_r.
Qed.

Lemma initialize_registry_idempotent_witness :
  exists s1,
    AgentRegistry.initialize_registry (mock_world ∅ [])
      = Some (Some "0.0.999999", s1) /\
    AgentRegistry.initialize_registry s1 = Some (Some "0.0.999999", s1) /\
    length (topics s1) = 1%nat.
Proof.
  destruct (initialize_registry_idempotent (mock_world ∅ []))
    as (r & s1 & Hrun & _ & Hok & _).
  assert (E : r = Some "0.0.999999" /\ length (topics s1) = 1%nat).
  { vm_compute in Hrun. injection Hrun as <- <-. split; reflexivity. }
  destruct E as [-> Hlen]. destruct (Hok eq_refl) as [_ Hagain].
  exists s1. repeat split; assumption.
Defined.

(** X2. [register_agent] creates the registry topic on demand.  When none
    is set and the creation fails, it returns [None] after that one
    attempt: nothing is posted and no agent changes, whether or not the
    agent exists.  When the creation succeeds, the new topic becomes the
    registry topic and the Register envelope is posted to it. *)
Theorem register_agent_creates_registry_on_demand :
  (forall s r,
     truthy (registry_topic s) = false ->
     truthy (create_reply s (length (topics s))) = false ->
     exists s',
       AgentRegistry.register_agent r s = Some (None, s') /\
       messages s' = messages s /\ objs s' = objs s /\
       registry_topic s' = registry_topic s /\
       length (topics s') = S (length (topics s))) /\
  (forall s r a,
     truthy (registry_topic s) = false ->
     truthy (create_reply s (length (topics s))) = true ->
     objs s !! r = Some a ->
     let topic := create_reply s (length (topics s)) in
     let tx := submit_reply s (length (messages s)) in
     exists s',
       AgentRegistry.register_agent r s = Some (tx, s') /\
       registry_topic s' = topic /\
       topics s' = topics s ++ [mkTopicCreate (Some "hcs-10:0:60:3:") true topic] /\
       messages s' = messages s ++
         [mkSubmission topic (get_hcs10_register_payload a)
            (Some "hcs-10:op:0:0") tx]).
Proof.
  split.
  - intros s r Hrt Hct. eexists. run_steps.
    split; [reflexivity|]. cbn. repeat split.
    now rewrite length_app, Nat.add_1_r.
  - intros s r a Hrt Hct Hr topic tx. run_steps. fold topic tx.
    destruct (truthy tx) eqn:Etx; run_steps; eexists;
      (split; [reflexivity|]); cbn; repeat split.
Qed.

Lemma register_agent_creates_registry_on_demand_witness :
  (exists s',
     AgentRegistry.register_agent 3 (mock_world {[ 3%nat := agent_N ]} [])
       = Some (Some "0.0.123456@1234567890.123456789", s') /\
     registry_topic s' = Some "0.0.999999" /\
     topics s' = [mkTopicCreate (Some "hcs-10:0:60:3:") true
                    (Some "0.0.999999")] /\
     messages s' =
       [mkSubmission (Some "0.0.999999")
          (OpRegister "0.0.300" "Registering general_purpose agent: N")
          (Some "hcs-10:op:0:0")
          (Some "0.0.123456@1234567890.123456789")]) /\
  (exists s',
     AgentRegistry.register_agent 3 (dead_world {[ 3%nat := agent_N ]} [])
       = Some (None, s') /\
     messages s' = [] /\ length (topics s') = 1%nat).
Proof.
  split.
  - assert (Hr : objs (mock_world {[ 3%nat := agent_N ]} []) !! 3%nat
                 = Some agent_N) by (vm_compute; reflexivity).
    destruct (proj2 register_agent_creates_registry_on_demand
                (mock_world {[ 3%nat := agent_N ]} []) 3%nat agent_N
                eq_refl eq_refl Hr)
      as (s' & Hrun & Hrt & Htop & Hmsg).
    exists s'. repeat split; assumption.
  - destruct (proj1 register_agent_creates_registry_on_demand
                (dead_world {[ 3%nat := agent_N ]} []) 3%nat eq_refl eq_refl)
      as (s' & Hrun & Hmsg & _ & _ & Hlen).
    exists s'. repeat split; assumption.
Defined.

(** X3. [delete_agent] never creates the registry topic: without one it
    returns [None] and does nothing at all.  With one it posts a Delete
    envelope carrying the given [uid] to the registry topic, whatever the
    status of the agent, and marks the agent Deleted exactly when the
    append returned a transaction id; no other field and no row changes. *)
Theorem delete_agent_marks_deleted_on_success_only :
  (forall s r uid,
     truthy (registry_topic s) = false ->
     AgentRegistry.delete_agent r uid s = Some (None, s)) /\
  (forall s r a uid,
     truthy (registry_topic s) = true ->
     objs s !! r = Some a ->
     let tx := submit_reply s (length (messages s)) in
     exists s',
       AgentRegistry.delete_agent r uid s = Some (tx, s') /\
       messages s' = messages s ++
         [mkSubmission (registry_topic s)
            (OpDelete uid
               ("Removing agent " +:+ agent_name a +:+ " from registry."))
            (Some "hcs-10:op:1:0") tx] /\
       objs s' = (if truthy tx then <[r := set_status DELETED a]> (objs s)
                  else objs s) /\
       topics s' = topics s /\ ai_agents s' = ai_agents s).
Proof.
  split.
  - intros s r uid Hrt. run_steps. reflexivity.
  - intros s r a uid Hrt Hr tx. run_steps. fold tx.
    destruct (truthy tx) eqn:Etx; run_steps; eexists;
      (split; [reflexivity|]); cbn; repeat split.
Qed.

Lemma delete_agent_marks_deleted_on_success_only_witness :
  (exists s',
     AgentRegistry.delete_agent 1 "0.0.100" (no_topics_world two_agents [])
       = Some (Some "tx", s') /\
     messages s' =
       [mkSubmission (Some "0.0.1")
          (OpDelete "0.0.100" "Removing agent A from registry.")
          (Some "hcs-10:op:1:0") (Some "tx")] /\
     objs s' !! 1%nat = Some (set_status DELETED agent_A) /\
     objs s' !! 2%nat = Some agent_B) /\
  AgentRegistry.delete_agent 1 "0.0.100" (mock_world two_agents [])
  = Some (None, mock_world two_agents []).
Proof.
  split.
  - destruct (proj2 delete_agent_marks_deleted_on_success_only
                (no_topics_world two_agents []) 1%nat agent_A "0.0.100"
                eq_refl eq_refl)
      as (s' & Hrun & Hmsg & Hobjs & _).
    exists s'. split; [exact Hrun|]. split; [exact Hmsg|].
    rewrite Hobjs. split; vm_compute; reflexivity.
  - exact (proj1 delete_agent_marks_deleted_on_success_only
             (mock_world two_agents []) 1%nat "0.0.100" eq_refl).
Defined.

(** X4. An agent without an outbound topic cannot request a connection:
    [send_connection_request] returns [None] and does nothing, so nothing
    is posted and nothing is counted. *)
Theorem send_connection_request_needs_outbound_topic s r a target :
  objs s !! r = Some a ->
  truthy (outbound_topic_id a) = false ->
  AgentRegistry.send_connection_request r target s = Some (None, s).
Proof. intros Hr Hout. run_steps. reflexivity. Qed.

Lemma send_connection_request_needs_outbound_topic_witness :
  AgentRegistry.send_connection_request 3 "0.0.201"
    (mock_world {[ 3%nat := agent_N ]} [])
  = Some (None, mock_world {[ 3%nat := agent_N ]} []).
Proof.
  apply (send_connection_request_needs_outbound_topic
           (mock_world {[ 3%nat := agent_N ]} []) 3%nat agent_N "0.0.201");
    vm_compute; reflexivity.
Defined.

(** ** Connection topics *)

(** X5. [create_connection_topic] always makes one creation attempt.  When
    it fails nothing is posted and no agent changes.  When it succeeds
    two ConnectionCreated envelopes are posted, the first to the inbound
    topic of the first agent and naming the second, the second the other
    way round, both with the new topic and the connection id; the second
    is posted whatever the first returned, and each of two distinct agents
    has its [active_connections] raised by 1 exactly when its own
    notification returned a transaction id: one side may be counted and
    the other not. *)
Theorem create_connection_topic_notifies_independently s ra rb A B cid :
  ra <> rb ->
  objs s !! ra = Some A -> objs s !! rb = Some B ->
  let topic := create_reply s (length (topics s)) in
  let n := length (messages s) in
  let to_A :=
    mkSubmission (inbound_topic_id A)
      (OpConnectionCreated topic (account_id B) (AgentRegistry.operator_id B)
         cid ("Connection established with " +:+ agent_name B))
      (Some "hcs-10:op:4:1") (submit_reply s n) in
  let to_B :=
    mkSubmission (inbound_topic_id B)
      (OpConnectionCreated topic (account_id A) (AgentRegistry.operator_id A)
         cid ("Connection established with " +:+ agent_name A))
      (Some "hcs-10:op:4:1") (submit_reply s (S n)) in
  exists s',
    AgentRegistry.create_connection_topic ra rb cid s = Some (topic, s') /\
    length (topics s') = S (length (topics s)) /\
    (truthy topic = false -> messages s' = messages s /\ objs s' = objs s) /\
    (truthy topic = true ->
     exists A' B',
       messages s' = messages s ++ [to_A; to_B] /\
       objs s' !! ra = Some A' /\ objs s' !! rb = Some B' /\
       active_connections A' =
         active_connections A + (if truthy (submit_reply s n) then 1 else 0) /\
       active_connections B' =
         active_connections B +
         (if truthy (submit_reply s (S n)) then 1 else 0)).
Proof.
  intros Hne HA HB topic n to_A to_B.
  unfold AgentRegistry.create_connection_topic.
  erewrite bind_step by (unfold read_obj; rewrite HA; reflexivity).
  erewrite bind_step by reflexivity. fold topic.
  destruct (truthy topic) eqn:Et; cbn [when].
  - match goal with |- context [(_ ≫= _) ?st] => set (s2 := st) end.
    assert (H2a : objs s2 !! ra = Some A) by exact HA.
    assert (H2b : objs s2 !! rb = Some B) by exact HB.
    pose proof (notify_connection_created_run s2 ra rb _ _ topic cid H2a H2b)
      as Hn1.
    cbn zeta in Hn1.
    replace (submit_reply s2 (length (messages s2)))
      with (submit_reply s n) in Hn1 by reflexivity.
    match type of Hn1 with _ = Some (_, ?st) => set (s3 := st) in Hn1 end.
    set (A1 := if truthy (submit_reply s n)
               then set_active_connections (active_connections A + 1)
                      (increment_messages_received
                         (utcnow s2 (clock_reads s2)) A)
               else A).
    assert (H3a : objs s3 !! ra = Some A1).
    { subst s3 A1. destruct (truthy (submit_reply s n)); cbn;
        [apply lookup_insert_eq | exact HA]. }
    assert (H3b : objs s3 !! rb = Some B).
    { subst s3. destruct (truthy (submit_reply s n)); cbn;
        [rewrite lookup_insert_ne by done|]; exact HB. }
    assert (HA1 : account_id A1 = account_id A /\
                  AgentRegistry.operator_id A1 = AgentRegistry.operator_id A /\
                  agent_name A1 = agent_name A).
    { subst A1. destruct (truthy (submit_reply s n)); repeat split. }
    destruct HA1 as (HA1a & HA1o & HA1n).
    pose proof (notify_connection_created_run s3 rb ra _ _ topic cid H3b H3a)
      as Hn2.
    cbn zeta in Hn2. rewrite HA1a, HA1o, HA1n in Hn2.
    assert (Hm3 : messages s3 = messages s ++ [to_A]) by reflexivity.
    assert (Hlen3 : length (messages s3) = S n).
    { rewrite Hm3, length_app. subst n. cbn. lia. }
    rewrite Hlen3, Hm3 in Hn2.
    replace (submit_reply s3 (S n)) with (submit_reply s (S n)) in Hn2
      by (subst s3; destruct (truthy (submit_reply s n)); reflexivity).
    unfold mbind, M_bind. rewrite Hn1, Hn2. cbn [mret M_ret].
    eexists. split; [reflexivity|].
    split.
    { cbn. subst s3 s2. destruct (truthy (submit_reply s (S n))),
        (truthy (submit_reply s n)); cbn; now rewrite length_app, Nat.add_1_r. }
    split; [discriminate|]. intros _.
    exists (A1), (if truthy (submit_reply s (S n))
                  then set_active_connections (active_connections B + 1)
                         (increment_messages_received
                            (utcnow s3 (clock_reads s3)) B)
                  else B).
    split.
    { cbn [messages set_messages]. now rewrite <- app_assoc. }
    destruct (truthy (submit_reply s (S n))) eqn:E2; cbn.
    + rewrite lookup_insert_ne by done. rewrite lookup_insert_eq.
      split; [exact H3a|]. split; [reflexivity|].
      subst A1. destruct (truthy (submit_reply s n)); cbn; lia.
    + split; [exact H3a|]. split; [exact H3b|].
      subst A1. destruct (truthy (submit_reply s n)); cbn; lia.
  - eexists. split; [reflexivity|]. cbn.
    split; [now rewrite length_app, Nat.add_1_r|].
    split; [auto | discriminate].
Qed.

Lemma create_connection_topic_notifies_independently_witness :
  exists s' A' B',
    AgentRegistry.create_connection_topic 1 2 7
      (one_append_world two_agents []) = Some (Some "0.0.7", s') /\
    messages s' =
      [mkSubmission (Some "0.0.101")
         (OpConnectionCreated (Some "0.0.7") "0.0.200" "0.0.200@0.0.201" 7
            "Connection established with B")
         (Some "hcs-10:op:4:1") (Some "tx");
       mkSubmission (Some "0.0.201")
         (OpConnectionCreated (Some "0.0.7") "0.0.100" "0.0.100@0.0.101" 7
            "Connection established with A")
         (Some "hcs-10:op:4:1") None] /\
    objs s' !! 1%nat = Some A' /\ objs s' !! 2%nat = Some B' /\
    active_connections A' = 1 /\ active_connections B' = 0.
Proof.
  destruct (create_connection_topic_notifies_independently
              (one_append_world two_agents []) 1 2 agent_A agent_B 7
              ltac:(discriminate) eq_refl eq_refl)
    as (s' & Hrun & _ & _ & Hok).
  destruct (Hok eq_refl) as (A' & B' & Hmsg & HA' & HB' & HcA & HcB).
  exists s', A', B'. repeat split; assumption.
Defined.

(** ** What no operation writes *)

(** X6. No sequence of registry operations removes an agent or writes its
    [id], [account_id], [agent_name], [agent_type], [ttl] or
    [registry_topic_id]; the counters [messages_sent] and
    [messages_received] never decrease, and [messages_received] moves only
    with connection notifications: requests, messages and transaction
    requests are never counted as received by anyone. *)
Theorem operations_keep_identity os s s' r a :
  run os s = Some (tt, s') ->
  objs s !! r = Some a ->
  exists a',
    objs s' !! r = Some a' /\
    id a' = id a /\ account_id a' = account_id a /\
    agent_name a' = agent_name a /\ agent_type a' = agent_type a /\
    ttl a' = ttl a /\ registry_topic_id a' = registry_topic_id a /\
    messages_sent a <= messages_sent a' /\
    messages_received a <= messages_received a' /\
    (forallb (fun o => negb (notifies o)) os = true ->
     messages_received a' = messages_received a).
Proof.
  intros Hrun Hr.
  assert (H1 : keeps (fun _ x y =>
                 id y = id x /\ account_id y = account_id x /\
                 agent_name y = agent_name x /\ agent_type y = agent_type x /\
                 ttl y = ttl x /\ registry_topic_id y = registry_topic_id x /\
                 messages_sent x <= messages_sent y /\
                 messages_received x <= messages_received y) (run os)).
  { apply keeps_run; try solve [intros; cbn; repeat split; lia].
    - intros ? x y z (? & ? & ? & ? & ? & ? & ? & ?) (? & ? & ? & ? & ? & ? & ? & ?).
      repeat split; try congruence; lia.
    - apply Forall_forall. intros o _.
      split; intros; try split; intros; cbn; repeat split; lia. }
  destruct (H1 _ _ _ Hrun _ _ Hr)
    as (a' & Ha' & ? & ? & ? & ? & ? & ? & ? & ?).
  exists a'. repeat split; try assumption.
  intros Hnone.
  assert (Hrecv : keeps (fun _ x y => messages_received y = messages_received x)
                 (run os)).
  { apply keeps_run; try solve [intros; cbn; congruence].
    apply Forall_forall. intros o Ho. split; [intros; reflexivity|].
    rewrite forallb_forall in Hnone. apply list_elem_of_In in Ho.
    specialize (Hnone _ Ho). intros E. rewrite E in Hnone. discriminate. }
  destruct (Hrecv _ _ _ Hrun _ _ Hr) as (a2 & Ha2 & Heq).
  congruence.
Qed.

Lemma operations_keep_identity_witness :
  exists s' a',
    run [SendConnectionRequest 1 "0.0.201"; CreateConnectionTopic 1 2 1;
         SendMessage 2 "0.0.999999" "hello"; DeleteAgent 1 "0.0.100"]
      (mock_world two_agents []) = Some (tt, s') /\
    objs s' !! 1%nat = Some a' /\
    account_id a' = "0.0.100" /\ ttl a' = 60 /\ 0 <= messages_sent a'.
Proof.
  destruct (run [SendConnectionRequest 1 "0.0.201"; CreateConnectionTopic 1 2 1;
                 SendMessage 2 "0.0.999999" "hello"; DeleteAgent 1 "0.0.100"]
              (mock_world two_agents []))
    as [[[] s']|] eqn:E; [|vm_compute in E; discriminate].
  destruct (operations_keep_identity _ _ s' 1%nat agent_A E eq_refl)
    as (a' & Ha' & _ & Hacc & _ & _ & Httl & _ & Hsent & _).
  exists s', a'. repeat split; assumption.
Defined.

(** ** The send handlers *)

(** An object loaded for a request and closed at its end leaves the store
    as it was. *)
Lemma close_load (os : gmap nat AIAgent) a :
  delete (fresh (dom os)) (<[fresh (dom os) := a]> os) = os.
Proof. apply delete_insert_dom, is_fresh. Qed.

Lemma close_update_load (os : gmap nat AIAgent) a b :
  delete (fresh (dom os)) (<[fresh (dom os) := b]> (<[fresh (dom os) := a]> os))
  = os.
Proof. rewrite insert_insert_eq. apply close_load. Qed.

Ltac run_handler :=
  erewrite bind_step by reflexivity;
  match goal with
  | H : filter _ _ = _ |- _ => rewrite H
  end;
  cbn [Api.scalar_one_or_none];
  unfold Api.load, Api.commit, Api.close;
  run_steps.

Lemma api_send_message_run s x row topic data :
  filter (fun a => account_id a = x) (ai_agents s) = [row] ->
  let tx := submit_reply s (length (messages s)) in
  Api.send_message x topic data s =
    Some (Api.Return
            (Api.mkSendResponse (if truthy tx then "success" else "failed") tx),
          set_messages
            (messages s ++
               [mkSubmission (Some topic)
                  (OpMessage (AgentRegistry.operator_id row) data
                     "Standard communication.")
                  (Some "hcs-10:op:6:3") tx])
            (if truthy tx
             then set_ai_agents
                    (map (fun r => if decide (id r = id row)
                                   then increment_messages_sent
                                          (utcnow s (clock_reads s)) row
                                   else r) (ai_agents s))
                    (set_clock_reads (S (clock_reads s)) s)
             else s)).
Proof.
  intros Hsel tx. unfold Api.send_message. run_handler. fold tx.
  destruct (truthy tx) eqn:Etx; run_steps;
    rewrite ?close_update_load, ?close_load; reflexivity.
Qed.

Lemma api_request_connection_run s x row target :
  filter (fun a => account_id a = x) (ai_agents s) = [row] ->
  truthy (outbound_topic_id row) = true ->
  let tx := submit_reply s (length (messages s)) in
  Api.request_connection x target s =
    Some (Api.Return
            (Api.mkSendResponse (if truthy tx then "success" else "failed") tx),
          set_messages
            (messages s ++
               [mkSubmission (Some target)
                  (OpConnectionRequest (AgentRegistry.operator_id row)
                     ("Requesting connection from " +:+ agent_name row))
                  (Some "hcs-10:op:3:1") tx])
            (if truthy tx
             then set_ai_agents
                    (map (fun r => if decide (id r = id row)
                                   then increment_messages_sent
                                          (utcnow s (clock_reads s)) row
                                   else r) (ai_agents s))
                    (set_clock_reads (S (clock_reads s)) s)
             else s)).
Proof.
  intros Hsel Hout tx. unfold Api.request_connection. run_handler. fold tx.
  destruct (truthy tx) eqn:Etx; run_steps;
    rewrite ?close_update_load, ?close_load; reflexivity.
Qed.

Lemma api_request_connection_no_outbound s x row target :
  filter (fun a => account_id a = x) (ai_agents s) = [row] ->
  truthy (outbound_topic_id row) = false ->
  Api.request_connection x target s =
    Some (Api.Return (Api.mkSendResponse "failed" None), s).
Proof.
  intros Hsel Hout. unfold Api.request_connection. run_handler.
  rewrite close_load. destruct s; reflexivity.
Qed.

Lemma api_request_transaction_failed s x row topic schedule data :
  filter (fun a => account_id a = x) (ai_agents s) = [row] ->
  let tx := submit_reply s (length (messages s)) in
  truthy tx = false ->
  Api.request_transaction x topic schedule data s =
    Some (Api.Return (Api.mkSendResponse "failed" tx),
          set_messages
            (messages s ++
               [mkSubmission (Some topic)
                  (OpTransaction (AgentRegistry.operator_id row) schedule data
                     "For your approval.")
                  (Some "hcs-10:op:7:3") tx]) s).
Proof.
  intros Hsel tx Etx. unfold Api.request_transaction. run_handler. fold tx.
  rewrite Etx. run_steps. rewrite close_load. reflexivity.
Qed.

Lemma api_request_transaction_run s x row topic schedule data :
  filter (fun a => account_id a = x) (ai_agents s) = [row] ->
  let tx := submit_reply s (length (messages s)) in
  exists a s',
    Api.request_transaction x topic schedule data s =
      Some (Api.Return
              (Api.mkSendResponse (if truthy tx then "success" else "failed") tx),
            s') /\
    id a = id row /\ account_id a = account_id row /\
    ai_agents s' =
      (if truthy tx
       then map (fun r => if decide (id r = id row) then a else r) (ai_agents s)
       else ai_agents s).
Proof.
  intros Hsel tx. unfold Api.request_transaction. run_handler. fold tx.
  destruct (truthy tx) eqn:Etx; run_steps.
  - exists (increment_messages_sent (utcnow s (S (clock_reads s)))
              (increment_messages_sent (utcnow s (clock_reads s)) row)).
    eexists. split; [reflexivity|]. cbn. repeat split.
  - exists row. eexists. split; [reflexivity|]. repeat split.
Qed.

(** Rows of a table with distinct keys are told apart by their key. *)
Lemma NoDup_map_eq {A B} (f : A -> B) (l : list A) x y :
  NoDup (map f l) -> x ∈ l -> y ∈ l -> f x = f y -> x = y.
Proof.
  induction l as [|z l IH]; cbn; intros Hnd Hx Hy Hf; [inversion Hx|].
  apply NoDup_cons in Hnd as [Hz Hnd].
  apply elem_of_cons in Hx as [->|Hx]; apply elem_of_cons in Hy as [->|Hy];
    try reflexivity; try (now apply IH).
  - exfalso. apply Hz. rewrite Hf. apply list_elem_of_fmap. eauto.
  - exfalso. apply Hz. rewrite <- Hf. apply list_elem_of_fmap. eauto.
Qed.

(** With distinct keys, the commit of the one row selected by account id
    rewrites the rows of that account only. *)
Lemma commit_one_row rows x row (g : AIAgent -> AIAgent) :
  NoDup (map id rows) ->
  filter (fun r => account_id r = x) rows = [row] ->
  map (fun r => if decide (id r = id row) then g row else r) rows
  = map (fun r => if decide (account_id r = x) then g r else r) rows.
Proof.
  intros Hnd Hsel.
  assert (Hrow : row ∈ rows /\ account_id row = x).
  { assert (H : row ∈ filter (fun r => account_id r = x) rows)
      by (rewrite Hsel; constructor).
    apply list_elem_of_filter in H as [? ?]. auto. }
  destruct Hrow as [Hin Hacc].
  apply map_ext_Forall, Forall_forall. intros r Hr.
  destruct (decide (id r = id row)) as [Hid|Hid].
  - assert (r = row) by (apply (NoDup_map_eq id rows); assumption). subst r.
    now rewrite decide_True.
  - rewrite decide_False; [reflexivity|]. intros Hx. apply Hid.
    assert (H : r ∈ filter (fun r => account_id r = x) rows)
      by (apply list_elem_of_filter; auto).
    rewrite Hsel in H. apply list_elem_of_singleton in H. now subst.
Qed.



(** X8. A send that the consensus service refuses is reported with status
    ["failed"] and is not committed: through [/messages/send],
    [/connections/request] and [/transactions/request] the table and the
    store stay as they were, although the envelope was submitted.  A
    connection request by an agent without outbound topic fails before
    anything is submitted. *)
Theorem failed_send_changes_no_row s x row :
  filter (fun a => account_id a = x) (ai_agents s) = [row] ->
  let tx := submit_reply s (length (messages s)) in
  (truthy tx = false ->
   (forall t d, exists s',
      Api.send_message x t d s
        = Some (Api.Return (Api.mkSendResponse "failed" tx), s') /\
      ai_agents s' = ai_agents s /\ objs s' = objs s /\
      length (messages s') = S (length (messages s))) /\
   (forall t i d, exists s',
      Api.request_transaction x t i d s
        = Some (Api.Return (Api.mkSendResponse "failed" tx), s') /\
      ai_agents s' = ai_agents s /\ objs s' = objs s /\
      length (messages s') = S (length (messages s))) /\
   (truthy (outbound_topic_id row) = true ->
    forall t, exists s',
      Api.request_connection x t s
        = Some (Api.Return (Api.mkSendResponse "failed" tx), s') /\
      ai_agents s' = ai_agents s /\ objs s' = objs s /\
      length (messages s') = S (length (messages s)))) /\
  (truthy (outbound_topic_id row) = false ->
   forall t,
     Api.request_connection x t s
       = Some (Api.Return (Api.mkSendResponse "failed" None), s)).
Proof.
  intros Hsel tx. split.
  - intros Etx. repeat split; intros.
    + rewrite (api_send_message_run s x row t d Hsel). fold tx. rewrite Etx.
      eexists. split; [reflexivity|]. cbn.
      repeat split. now rewrite length_app, Nat.add_1_r.
    + rewrite (api_request_transaction_failed s x row t i d Hsel Etx).
      eexists. split; [reflexivity|]. cbn.
      repeat split. now rewrite length_app, Nat.add_1_r.
    + rewrite (api_request_connection_run s x row t Hsel H). fold tx.
      rewrite Etx. eexists. split; [reflexivity|]. cbn.
      repeat split. now rewrite length_app, Nat.add_1_r.
  - intros Hout t. now apply api_request_connection_no_outbound with row.
Qed.

Lemma failed_send_changes_no_row_witness :
  exists s',
    Api.send_message "0.0.100" "0.0.300" "hello" (dead_world ∅ [agent_A])
      = Some (Api.Return (Api.mkSendResponse "failed" None), s') /\
    ai_agents s' = [agent_A].
Proof.
  destruct (proj1 (proj1 (failed_send_changes_no_row
                     (dead_world ∅ [agent_A]) "0.0.100" agent_A eq_refl)
                     eq_refl) "0.0.300" "hello")
    as (s' & Hrun & Htab & _).
  exists s'. split; assumption.
Defined.

(** X9. A send that the consensus service accepts is committed once:
    through [/messages/send], and through [/connections/request] for an
    agent with an outbound topic, the row of the sender has
    [messages_sent] raised by exactly 1 and [last_activity] set to the
    current time, and every other row stays as it was. *)
Theorem accepted_send_is_committed_once s x row :
  NoDup (map id (ai_agents s)) ->
  filter (fun a => account_id a = x) (ai_agents s) = [row] ->
  let tx := submit_reply s (length (messages s)) in
  let rows' :=
    map (fun r => if decide (account_id r = x)
                  then increment_messages_sent (utcnow s (clock_reads s)) r
                  else r) (ai_agents s) in
  truthy tx = true ->
  (forall t d, exists s',
     Api.send_message x t d s
       = Some (Api.Return (Api.mkSendResponse "success" tx), s') /\
     ai_agents s' = rows' /\ objs s' = objs s) /\
  (truthy (outbound_topic_id row) = true ->
   forall t, exists s',
     Api.request_connection x t s
       = Some (Api.Return (Api.mkSendResponse "success" tx), s') /\
     ai_agents s' = rows' /\ objs s' = objs s).
Proof.
  intros Hnd Hsel tx rows' Etx. split.
  - intros t d. rewrite (api_send_message_run s x row t d Hsel). fold tx.
    rewrite Etx. eexists. split; [reflexivity|]. cbn.
    split; [|reflexivity].
    apply (commit_one_row _ _ _
             (increment_messages_sent (utcnow s (clock_reads s))) Hnd Hsel).
  - intros Hout t. rewrite (api_request_connection_run s x row t Hsel Hout).
    fold tx. rewrite Etx. eexists. split; [reflexivity|]. cbn.
    split; [|reflexivity].
    apply (commit_one_row _ _ _
             (increment_messages_sent (utcnow s (clock_reads s))) Hnd Hsel).
Qed.

Lemma accepted_send_is_committed_once_witness :
  exists s',
    Api.send_message "0.0.100" "0.0.300" "hello"
      (mock_world ∅ [agent_A; agent_B])
      = Some (Api.Return (Api.mkSendResponse "success"
                            (Some "0.0.123456@1234567890.123456789")), s') /\
    map messages_sent (ai_agents s') = [1; 0].
Proof.
  assert (Hnd : NoDup (map id (ai_agents (mock_world ∅ [agent_A; agent_B])))).
  { cbn. apply NoDup_cons. split; [|apply NoDup_singleton].
    intros H%list_elem_of_singleton. discriminate H. }
  destruct (proj1 (accepted_send_is_committed_once
                     (mock_world ∅ [agent_A; agent_B]) "0.0.100" agent_A
                     Hnd eq_refl eq_refl) "0.0.300" "hello")
    as (s' & Hrun & Htab & _).
  exists s'. split; [exact Hrun|]. rewrite Htab. reflexivity.
Defined.

(** ** The stored row of a registration *)

(** The registration handler on a new account id that the database
    accepts, row by row: [base] is the row of the first commit, [a2] the
    object after the two topic creations. *)
Lemma api_register_agent_row s rq :
  filter (fun a => account_id a = Api.rq_account_id rq) (ai_agents s) = [] ->
  insert_ok s (Api.new_row rq s) = true ->
  let rin := create_reply s (length (topics s)) in
  let rout := create_reply s (S (length (topics s))) in
  let base := Api.new_row rq s in
  let a2 :=
    set_outbound_topic_id (if truthy rout then rout else None)
      (set_inbound_topic_id (if truthy rin then rin else None) base) in
  exists tx s',
    Api.register_agent rq s =
      Some (Api.Return
              (Api.mkRegistrationResponse (Api.next_id (ai_agents s))
                 (Api.rq_account_id rq) tx
                 (if truthy rin then rin else None)
                 (if truthy rout then rout else None)), s') /\
    ai_agents s' = ai_agents s ++
      [if truthy tx then set_status ACTIVE (set_registration_tx_id tx a2)
       else base].
Proof.
  intros Hnew Hok rin rout base a2.
  destruct (api_register_agent_exact s rq Hnew Hok) as (s' & Hrun & Htab & _).
  cbn zeta in Hrun, Htab. eauto.
Qed.

Lemma filter_app_singleton (P : AIAgent -> Prop) `{!forall a, Decision (P a)}
    rows row :
  filter P rows = [] -> P row -> filter P (rows ++ [row]) = [row].
Proof.
  intros Hnil Hrow. rewrite filter_app, Hnil.
  now rewrite filter_cons_True by exact Hrow.
Qed.

(** X10. An agent registered through [/agents/register] is found by
    [/agents/{account_id}] afterwards: the lookup returns the key that the
    registration reported, the name, type and account id of the request, no
    active connection, and the status Active or Inactive according to
    whether the Register append returned a transaction id.  A request for
    [max_connections] 0, or for none, is stored as 100.  This is for a row
    that the database accepts. *)
Theorem registered_agent_is_found s rq :
  filter (fun a => account_id a = Api.rq_account_id rq) (ai_agents s) = [] ->
  insert_ok s (Api.new_row rq s) = true ->
  exists resp s' found,
    Api.register_agent rq s = Some (Api.Return resp, s') /\
    Api.get_agent (Api.rq_account_id rq) s' = Some (Api.Return found, s') /\
    Api.ar_id found = Api.rs_agent_id resp /\
    Api.ar_account_id found = Api.rq_account_id rq /\
    Api.ar_agent_name found = Api.rq_agent_name rq /\
    Api.ar_agent_type found = Api.rq_agent_type rq /\
    Api.ar_status found =
      (if truthy (Api.rs_registration_tx_id resp) then ACTIVE else INACTIVE) /\
    Api.ar_active_connections found = 0 /\
    Api.ar_max_connections found = Api.or_100 (Api.rq_max_connections rq) /\
    Api.ar_max_connections found <> 0.
Proof.
  intros Hnew Hok.
  destruct (api_register_agent_row s rq Hnew Hok) as (tx & s' & Hrun & Htab).
  cbn zeta in Hrun, Htab. unfold Api.new_row in Htab.
  match type of Htab with _ = _ ++ [?x] => set (row := x) in * end.
  assert (Hacc : account_id row = Api.rq_account_id rq)
    by (subst row; destruct (truthy tx); reflexivity).
  eexists _, s', (Api.agent_response row). split; [exact Hrun|].
  split.
  { unfold Api.get_agent. erewrite bind_step by reflexivity.
    rewrite Htab, (filter_app_singleton _ _ _ Hnew Hacc). reflexivity. }
  cbn. subst row. destruct (truthy tx); cbn; repeat split;
    unfold Api.or_100; destruct (Api.rq_max_connections rq) as [z|];
    try destruct (Z.eqb_spec z 0); try discriminate; auto.
Qed.

Lemma registered_agent_is_found_witness :
  exists resp s' found,
    Api.register_agent request_N (mock_world ∅ [agent_A])
      = Some (Api.Return resp, s') /\
    Api.get_agent "0.0.300" s' = Some (Api.Return found, s') /\
    Api.ar_status found = ACTIVE /\ Api.ar_max_connections found = 100.
Proof.
  destruct (registered_agent_is_found (mock_world ∅ [agent_A]) request_N
              eq_refl eq_refl)
    as (resp & s' & found & Hrun & Hget & _ & _ & _ & _ & Hst & _ & Hmax & _).
  exists resp, s', found. split; [exact Hrun|]. split; [exact Hget|].
  assert (E : Api.rs_registration_tx_id resp
              = Some "0.0.123456@1234567890.123456789").
  { vm_compute in Hrun. injection Hrun as <- _. reflexivity. }
  rewrite E in Hst. split; [exact Hst | exact Hmax].
Defined.

(** X11. The topic ids of a new agent are stored only together with its
    registration.  The response of [/agents/register] always reports the
    topics that were created, but the handler commits them only when the
    Register append returned a transaction id: otherwise the stored row
    stays Inactive and without topic ids, and the created topics are known
    to the response alone.  This is for a row that the database accepts. *)
Theorem topics_stored_only_with_registration s rq :
  filter (fun a => account_id a = Api.rq_account_id rq) (ai_agents s) = [] ->
  insert_ok s (Api.new_row rq s) = true ->
  let rin := create_reply s (length (topics s)) in
  let rout := create_reply s (S (length (topics s))) in
  exists resp s' row,
    Api.register_agent rq s = Some (Api.Return resp, s') /\
    ai_agents s' = ai_agents s ++ [row] /\
    Api.rs_inbound_topic_id resp = (if truthy rin then rin else None) /\
    Api.rs_outbound_topic_id resp = (if truthy rout then rout else None) /\
    (truthy (Api.rs_registration_tx_id resp) = true ->
     inbound_topic_id row = Api.rs_inbound_topic_id resp /\
     outbound_topic_id row = Api.rs_outbound_topic_id resp /\
     registration_tx_id row = Api.rs_registration_tx_id resp) /\
    (truthy (Api.rs_registration_tx_id resp) = false ->
     inbound_topic_id row = None /\ outbound_topic_id row = None /\
     registration_tx_id row = None /\ status row = INACTIVE).
Proof.
  intros Hnew Hok rin rout.
  destruct (api_register_agent_row s rq Hnew Hok) as (tx & s' & Hrun & Htab).
  cbn zeta in Hrun, Htab. unfold Api.new_row in Htab.
  fold rin rout in Hrun, Htab.
  do 3 eexists. split; [exact Hrun|]. split; [exact Htab|]. cbn.
  split; [reflexivity|]. split; [reflexivity|].
  split; intros Etx; rewrite Etx; cbn; repeat split.
Qed.

Lemma topics_stored_only_with_registration_witness :
  exists resp s' row,
    Api.register_agent request_N
      (mkState (fun _ => Some "0.0.7") (fun _ => None) (fun n => Z.of_nat n)
               [] [] 0 (Some "0.0.1") ∅ [] sqlite_insert_ok)
      = Some (Api.Return resp, s') /\
    ai_agents s' = [row] /\
    Api.rs_inbound_topic_id resp = Some "0.0.7" /\
    inbound_topic_id row = None.
Proof.
  destruct (topics_stored_only_with_registration
              (mkState (fun _ => Some "0.0.7") (fun _ => None)
                 (fun n => Z.of_nat n) [] [] 0 (Some "0.0.1") ∅ []
                 sqlite_insert_ok)
              request_N eq_refl eq_refl)
    as (resp & s' & row & Hrun & Htab & Hin & _ & _ & Hfail).
  exists resp, s', row. split; [exact Hrun|]. split; [exact Htab|].
  split; [exact Hin|].
  assert (E : Api.rs_registration_tx_id resp = None).
  { vm_compute in Hrun. injection Hrun as <- _. reflexivity. }
  rewrite E in Hfail. exact (proj1 (Hfail eq_refl)).
Defined.

(** ** The constraints of the table *)

Lemma table_ok_keys rows rows' :
  same_agents rows rows' -> table_ok rows -> table_ok rows'.
Proof.
  unfold same_agents. intros Hk [Hid Hacc].
  assert (E1 : map id rows' = map id rows).
  { apply (f_equal (map fst)) in Hk. rewrite !map_map in Hk. exact Hk. }
  assert (E2 : map account_id rows' = map account_id rows).
  { apply (f_equal (map snd)) in Hk. rewrite !map_map in Hk. exact Hk. }
  split; [rewrite E1 | rewrite E2]; assumption.
Qed.

(** A commit of the object loaded from [row] keeps keys and account ids,
    and adds no row. *)
Lemma same_agents_commit rows row a :
  table_ok rows -> row ∈ rows ->
  id a = id row -> account_id a = account_id row ->
  same_agents rows
    (map (fun r => if decide (id r = id row) then a else r) rows).
Proof.
  intros Hok Hin Hid Hacc. unfold same_agents.
  rewrite map_map. apply map_ext_Forall, Forall_forall. intros r Hr.
  destruct (decide (id r = id row)) as [E|E]; [|reflexivity].
  assert (r = row) by (apply (NoDup_map_eq id rows); [apply Hok|..]; assumption).
  subst r. unfold row_key. now rewrite Hid, Hacc.
Qed.

Lemma filter_nil_not P `{!forall a : AIAgent, Decision (P a)} rows row :
  filter P rows = [] -> row ∈ rows -> ~ P row.
Proof.
  intros Hnil Hin HP.
  assert (Hf : row ∈ filter P rows) by (apply list_elem_of_filter; auto).
  rewrite Hnil in Hf. inversion Hf.
Qed.

(** The first commit of a registration adds a row with a new key and a new
    account id. *)
Lemma table_ok_add rows row :
  table_ok rows ->
  filter (fun a => account_id a = account_id row) rows = [] ->
  id row = Api.next_id rows ->
  table_ok (rows ++ [row]).
Proof.
  intros [Hid Hacc] Hnew Hkey. split.
  - rewrite map_app. apply NoDup_app. split; [exact Hid|].
    split; [|apply NoDup_singleton].
    intros k Hk Hk'. apply list_elem_of_singleton in Hk'. subst k.
    apply list_elem_of_fmap in Hk as (r & Er & Hr).
    pose proof (next_id_fresh rows) as Hfresh.
    rewrite Forall_forall in Hfresh. apply (Hfresh r Hr). congruence.
  - rewrite map_app. apply NoDup_app. split; [exact Hacc|].
    split; [|apply NoDup_singleton].
    intros k Hk Hk'. apply list_elem_of_singleton in Hk'. subst k.
    apply list_elem_of_fmap in Hk as (r & Er & Hr).
    apply (filter_nil_not _ rows r Hnew Hr). now symmetry.
Qed.

Lemma filter_singleton_elem P `{!forall a : AIAgent, Decision (P a)} rows row :
  filter P rows = [row] -> row ∈ rows.
Proof.
  intros Hsel.
  assert (Hf : row ∈ filter P rows) by (rewrite Hsel; constructor).
  now apply list_elem_of_filter in Hf as [_ ?].
Qed.

(** X12. Every handler returns, and keeps the constraints of the table:
    afterwards the keys are still distinct and so are the account ids.
    [/connections/request], [/messages/send] and [/transactions/request]
    leave the table with the same agents, each in place under the same key
    and account id: they neither add, delete nor rename one.
    [/agents/register] does the same or appends exactly one row, for the
    account id of the request. *)
Theorem handlers_keep_table_constraints s :
  table_ok (ai_agents s) ->
  (forall rq, exists res s',
     Api.register_agent rq s = Some (res, s') /\
     table_ok (ai_agents s') /\
     (same_agents (ai_agents s) (ai_agents s') \/
      exists row,
        ai_agents s' = ai_agents s ++ [row] /\
        account_id row = Api.rq_account_id rq)) /\
  (forall x t, exists res s',
     Api.request_connection x t s = Some (res, s') /\
     table_ok (ai_agents s') /\ same_agents (ai_agents s) (ai_agents s')) /\
  (forall x t d, exists res s',
     Api.send_message x t d s = Some (res, s') /\
     table_ok (ai_agents s') /\ same_agents (ai_agents s) (ai_agents s')) /\
  (forall x t i d, exists res s',
     Api.request_transaction x t i d s = Some (res, s') /\
     table_ok (ai_agents s') /\ same_agents (ai_agents s) (ai_agents s')).
Proof.
  intros Hok.
  assert (Hsame : forall rows', rows' = ai_agents s ->
            table_ok rows' /\ same_agents (ai_agents s) rows')
    by (intros ? ->; split; [exact Hok | reflexivity]).
  assert (Hcommit : forall row a,
            row ∈ ai_agents s -> id a = id row ->
            account_id a = account_id row ->
            let rows' := map (fun r => if decide (id r = id row) then a else r)
                           (ai_agents s) in
            table_ok rows' /\ same_agents (ai_agents s) rows').
  { intros row a Hin Hid Hacc rows'.
    assert (Hk : same_agents (ai_agents s) rows')
      by now apply same_agents_commit.
    split; [now apply (table_ok_keys (ai_agents s)) | exact Hk]. }
  split; [|split; [|split]].
  - intros rq.
    destruct (filter (fun a => account_id a = Api.rq_account_id rq)
                (ai_agents s)) as [|row [|row2 l]] eqn:Hsel.
    + destruct (insert_ok s (Api.new_row rq s)) eqn:Hins.
      * destruct (api_register_agent_row s rq Hsel Hins)
          as (tx & s' & Hrun & Htab).
        cbn zeta in Hrun, Htab. do 2 eexists. split; [exact Hrun|].
        rewrite Htab.
        match goal with |- context [_ ++ [?x]] => set (row := x) end.
        assert (Hrow : account_id row = Api.rq_account_id rq /\
                       id row = Api.next_id (ai_agents s))
          by (subst row; destruct (truthy tx); split; reflexivity).
        destruct Hrow as [Hacc Hid].
        split; [|right; eauto].
        apply table_ok_add; [exact Hok | now rewrite Hacc | exact Hid].
      * rewrite (api_register_agent_rejected s rq Hsel Hins).
        do 2 eexists. split; [reflexivity|]. split; [|left]; now apply Hsame.
    + do 2 eexists. unfold Api.register_agent.
      erewrite bind_step by reflexivity. rewrite Hsel.
      split; [reflexivity|]. split; [|left]; now apply Hsame.
    + do 2 eexists. unfold Api.register_agent.
      erewrite bind_step by reflexivity. rewrite Hsel.
      split; [reflexivity|]. split; [|left]; now apply Hsame.
  - intros x t.
    destruct (filter (fun a => account_id a = x) (ai_agents s))
      as [|row [|row2 l]] eqn:Hsel.
    + do 2 eexists. unfold Api.request_connection.
      erewrite bind_step by reflexivity. rewrite Hsel.
      split; [reflexivity | now apply Hsame].
    + destruct (truthy (outbound_topic_id row)) eqn:Hout.
      * rewrite (api_request_connection_run s x row t Hsel Hout).
        do 2 eexists. split; [reflexivity|].
        destruct (truthy (submit_reply s (length (messages s)))); cbn;
          [|now apply Hsame].
        apply Hcommit; try reflexivity.
        eapply filter_singleton_elem; exact Hsel.
      * rewrite (api_request_connection_no_outbound s x row t Hsel Hout).
        do 2 eexists. split; [reflexivity | now apply Hsame].
    + do 2 eexists. unfold Api.request_connection.
      erewrite bind_step by reflexivity. rewrite Hsel.
      split; [reflexivity | now apply Hsame].
  - intros x t d.
    destruct (filter (fun a => account_id a = x) (ai_agents s))
      as [|row [|row2 l]] eqn:Hsel.
    + do 2 eexists. unfold Api.send_message.
      erewrite bind_step by reflexivity. rewrite Hsel.
      split; [reflexivity | now apply Hsame].
    + rewrite (api_send_message_run s x row t d Hsel).
      do 2 eexists. split; [reflexivity|].
      destruct (truthy (submit_reply s (length (messages s)))); cbn;
        [|now apply Hsame].
      apply Hcommit; try reflexivity.
      eapply filter_singleton_elem; exact Hsel.
    + do 2 eexists. unfold Api.send_message.
      erewrite bind_step by reflexivity. rewrite Hsel.
      split; [reflexivity | now apply Hsame].
  - intros x t i d.
    destruct (filter (fun a => account_id a = x) (ai_agents s))
      as [|row [|row2 l]] eqn:Hsel.
    + do 2 eexists. unfold Api.request_transaction.
      erewrite bind_step by reflexivity. rewrite Hsel.
      split; [reflexivity | now apply Hsame].
    + destruct (api_request_transaction_run s x row t i d Hsel)
        as (a & s' & Hrun & Hid & Hacc & Htab).
      cbn zeta in Hrun, Htab. do 2 eexists. split; [exact Hrun|].
      rewrite Htab.
      destruct (truthy (submit_reply s (length (messages s))));
        [|now apply Hsame].
      apply Hcommit; try assumption.
      eapply filter_singleton_elem; exact Hsel.
    + do 2 eexists. unfold Api.request_transaction.
      erewrite bind_step by reflexivity. rewrite Hsel.
      split; [reflexivity | now apply Hsame].
Qed.

Lemma handlers_keep_table_constraints_witness :
  (exists res s',
     Api.send_message "0.0.100" "0.0.300" "hello"
       (mock_world ∅ [agent_A; agent_B]) = Some (res, s') /\
     map account_id (ai_agents s') = ["0.0.100"; "0.0.200"] /\
     map messages_sent (ai_agents s') = [1; 0]) /\
  (exists res s',
     Api.register_agent request_N (mock_world ∅ [agent_A; agent_B])
       = Some (res, s') /\
     NoDup (map account_id (ai_agents s')) /\
     map account_id (ai_agents s') = ["0.0.100"; "0.0.200"; "0.0.300"]).
Proof.
  assert (Hok : table_ok (ai_agents (mock_world ∅ [agent_A; agent_B]))).
  { split; cbn; (apply NoDup_cons; split; [|apply NoDup_singleton]);
      intros H%list_elem_of_singleton; discriminate H. }
  split.
  - destruct (proj1 (proj2 (proj2 (handlers_keep_table_constraints _ Hok)))
                "0.0.100" "0.0.300" "hello")
      as (res & s' & Hrun & _ & Hsame).
    exists res, s'. split; [exact Hrun|].
    apply (f_equal (map snd)) in Hsame. rewrite !map_map in Hsame.
    split; [exact Hsame|].
    vm_compute in Hrun. injection Hrun as _ <-. reflexivity.
  - destruct (proj1 (handlers_keep_table_constraints _ Hok) request_N)
      as (res & s' & Hrun & [_ Hacc] & _).
    exists res, s'. split; [exact Hrun|]. split; [exact Hacc|].
    vm_compute in Hrun. injection Hrun as _ <-. reflexivity.
Defined.

(** ** Topic memos *)

Lemma append_inj_l (p x y : string) : p +:+ x = p +:+ y -> x = y.
Proof.
  induction p as [|c p IH]; intros H; [exact H|].
  change (String c (p +:+ x) = String c (p +:+ y)) in H.
  injection H as H. now apply IH.
Qed.

(** Two texts cut at their first colon agree on both sides of it. *)
Lemma append_colon_inj p q r r' :
  Forall (fun c => c <> ":"%char) (list_ascii_of_string p) ->
  Forall (fun c => c <> ":"%char) (list_ascii_of_string q) ->
  p +:+ String ":" r = q +:+ String ":" r' -> p = q /\ r = r'.
Proof.
  revert q. induction p as [|c p IH]; intros [|d q] Hp Hq H.
  - injection H as H. auto.
  - change (String ":" r = String d (q +:+ String ":" r')) in H.
    injection H as <- _. inversion Hq; congruence.
  - change (String c (p +:+ String ":" r) = String ":" r') in H.
    injection H as -> _. inversion Hp; congruence.
  - change (String c (p +:+ String ":" r) = String d (q +:+ String ":" r')) in H.
    injection H as <- H. inversion Hp; inversion Hq; subst.
    destruct (IH q) as [-> ->]; auto.
Qed.

Lemma uint_no_colon d :
  Forall (fun c => c <> ":"%char)
    (list_ascii_of_string (NilEmpty.string_of_uint d)).
Proof. induction d; cbn; constructor; (discriminate || assumption). Qed.

Lemma fmt_int_no_colon z :
  Forall (fun c => c <> ":"%char) (list_ascii_of_string (fmt_int z)).
Proof.
  assert (H : forall d, Forall (fun c => c <> ":"%char)
                          (list_ascii_of_string (NilZero.string_of_uint d))).
  { intros d. destruct d; try apply uint_no_colon.
    cbn. constructor; [discriminate | constructor]. }
  unfold fmt_int. destruct (Z.to_int z) as [d|d]; cbn [NilZero.string_of_int].
  - apply H.
  - cbn. constructor; [discriminate | apply H].
Qed.

Lemma fmt_int_inj a b : fmt_int a = fmt_int b -> a = b.
Proof.
  assert (H : forall z, NilZero.int_of_string (fmt_int z) = Some (Z.to_int z)).
  { intros z. apply NilZero.isi; destruct z; cbn; try discriminate;
      intros [= E]; now apply DecimalPos.Unsigned.to_uint_nonnil in E. }
  intros E. apply DecimalZ.to_int_inj.
  pose proof (H a) as Ha. rewrite E, H in Ha. congruence.
Qed.

(** X13. The memo written for a topic tells what the topic is: when the
    memos of two topics among registry, inbound, outbound and connection
    coincide, the topics have the same role and their agents the same
    [ttl], and for inbound topics the same account id.  A reader of the
    memo recovers these from the text. *)
Theorem topic_memo_determines_role a b t1 t2 :
  In t1 ["registry"; "inbound"; "outbound"; "connection"] ->
  In t2 ["registry"; "inbound"; "outbound"; "connection"] ->
  get_topic_memo a t1 = get_topic_memo b t2 ->
  t1 = t2 /\ ttl a = ttl b /\
  (t1 = "inbound" -> account_id a = account_id b).
Proof.
  intros H1 H2 E.
  assert (Hcut : forall r r',
            "hcs-10:0:" +:+ fmt_int (ttl a) +:+ String ":" r
            = "hcs-10:0:" +:+ fmt_int (ttl b) +:+ String ":" r' ->
            ttl a = ttl b /\ r = r').
  { intros r r' H. apply append_inj_l in H.
    apply append_colon_inj in H; try apply fmt_int_no_colon.
    destruct H as [H ->]. split; [now apply fmt_int_inj | reflexivity]. }
  cbn in H1, H2.
  destruct H1 as [<-|[<-|[<-|[<-|[]]]]], H2 as [<-|[<-|[<-|[<-|[]]]]];
    apply Hcut in E as [Httl E]; vm_compute in E;
    try discriminate E; (split; [reflexivity|]); (split; [exact Httl|]);
    try discriminate.
  intros _. now injection E.
Qed.

Lemma topic_memo_determines_role_witness :
  ttl agent_A = 60 /\
  account_id
    (mkAIAgent 9 "0.0.100" "other" "data_validator" INACTIVE None None None
       60 5 0 0 0 None 0) = account_id agent_A.
Proof.
  destruct (topic_memo_determines_role
              (mkAIAgent 9 "0.0.100" "other" "data_validator" INACTIVE None
                 None None 60 5 0 0 0 None 0)
              agent_A "inbound" "inbound"
              ltac:(cbn; auto) ltac:(cbn; auto) eq_refl)
    as (_ & Httl & Hacc).
  split; [symmetry; exact Httl | exact (Hacc eq_refl)].
Defined.

(** ** Counting sends *)

Lemma accepted_singleton m :
  Z.of_nat (length (accepted [m])) = if truthy (sm_result m) then 1 else 0.
Proof.
  unfold accepted. destruct (truthy (sm_result m)) eqn:E.
  - now rewrite filter_cons_True by exact E.
  - rewrite filter_cons_False; [reflexivity|]. rewrite E. discriminate.
Qed.

(** One send by the object at [r]. *)
Lemma send_step r o s a :
  sends_from r o = true -> objs s !! r = Some a ->
  exists s1 a1 new,
    run_operation o s = Some (tt, s1) /\
    objs s1 !! r = Some a1 /\
    messages s1 = messages s ++ new /\
    outbound_topic_id a1 = outbound_topic_id a /\
    messages_sent a1 = messages_sent a + Z.of_nat (length (accepted new)).
Proof.
  intros Hs Hr.
  destruct o; try discriminate Hs; cbn in Hs; apply Nat.eqb_eq in Hs;
    subst; cbn [run_operation].
  - destruct (truthy (outbound_topic_id a)) eqn:Hout.
    + erewrite bind_step
        by (apply (send_connection_request_run s _ a); assumption).
      cbn zeta.
      destruct (truthy (submit_reply s (length (messages s)))) eqn:Etx;
        do 3 eexists; (split; [reflexivity|]); cbn;
        rewrite ?lookup_insert_eq; (split; [try reflexivity; eassumption|]);
        (split; [reflexivity|]); (split; [reflexivity|]);
        rewrite accepted_singleton; cbn; rewrite Etx; cbn; lia.
    + exists s, a, []. run_steps.
      repeat split; [now rewrite app_nil_r | cbn; lia].
  - run_steps.
    destruct (truthy (submit_reply s (length (messages s)))) eqn:Etx;
      run_steps; do 3 eexists; (split; [reflexivity|]); cbn;
      rewrite ?lookup_insert_eq; (split; [try reflexivity; eassumption|]);
      (split; [reflexivity|]); (split; [reflexivity|]);
      rewrite accepted_singleton; cbn; rewrite Etx; cbn; lia.
  - run_steps.
    destruct (truthy (submit_reply s (length (messages s)))) eqn:Etx;
      run_steps; do 3 eexists; (split; [reflexivity|]); cbn;
      rewrite ?lookup_insert_eq; (split; [try reflexivity; eassumption|]);
      (split; [reflexivity|]); (split; [reflexivity|]);
      rewrite accepted_singleton; cbn; rewrite Etx; cbn; lia.
Qed.

(** X14. [messages_sent] counts the accepted sends: a sequence of
    connection requests, messages and transaction requests sent by one
    agent always runs to its end, and raises the agent's [messages_sent]
    by exactly the number of submissions of the sequence that returned a
    transaction id.  A refused submission and a connection request without
    outbound topic count nothing. *)
Theorem messages_sent_counts_accepted_sends os s r a :
  forallb (sends_from r) os = true ->
  objs s !! r = Some a ->
  exists s' a' new,
    run os s = Some (tt, s') /\
    objs s' !! r = Some a' /\
    messages s' = messages s ++ new /\
    messages_sent a' = messages_sent a + Z.of_nat (length (accepted new)).
Proof.
  revert s a. induction os as [|o os IH]; intros s a Hall Hr.
  - exists s, a, []. cbn. repeat split; [assumption | now rewrite app_nil_r | lia].
  - cbn in Hall. apply andb_prop in Hall as [Ho Hall].
    destruct (send_step r o s a Ho Hr)
      as (s1 & a1 & new1 & Hrun1 & Hr1 & Hm1 & _ & Hc1).
    destruct (IH s1 a1 Hall Hr1) as (s' & a' & new & Hrun & Hr' & Hm & Hc).
    exists s', a', (new1 ++ new). cbn [run].
    rewrite (bind_step _ _ _ _ _ Hrun1). split; [exact Hrun|].
    split; [exact Hr'|]. split; [now rewrite Hm, Hm1, app_assoc|].
    unfold accepted in *. rewrite filter_app, length_app. lia.
Qed.

Lemma messages_sent_counts_accepted_sends_witness :
  exists s' a',
    run [SendMessage 1 "0.0.300" "one"; SendConnectionRequest 1 "0.0.201";
         SendTransactionRequest 1 "0.0.300" "0.0.555" "pay"]
      (mock_world two_agents []) = Some (tt, s') /\
    objs s' !! 1%nat = Some a' /\ messages_sent a' = 3.
Proof.
  destruct (messages_sent_counts_accepted_sends
              [SendMessage 1 "0.0.300" "one"; SendConnectionRequest 1 "0.0.201";
               SendTransactionRequest 1 "0.0.300" "0.0.555" "pay"]
              (mock_world two_agents []) 1%nat agent_A eq_refl eq_refl)
    as (s' & a' & new & Hrun & Hr & Hm & Hc).
  exists s', a'. split; [exact Hrun|]. split; [exact Hr|].
  assert (E : new = messages s').
  { rewrite Hm. reflexivity. }
  rewrite E in Hc. rewrite Hc.
  vm_compute in Hrun. injection Hrun as <-. reflexivity.
Defined.

(** X15. Sending needs no inbound topic, and the sender is then named with
    the text [None]: for an agent whose [inbound_topic_id] is unset,
    [send_message] still submits the Message envelope, and its
    [operator_id] reads [<account_id>@None]; so does the connection request
    of an agent that has an outbound topic only. *)
Theorem operator_id_without_inbound_topic s r a :
  objs s !! r = Some a ->
  inbound_topic_id a = None ->
  let tx := submit_reply s (length (messages s)) in
  (forall topic data, exists s' sub,
     AgentRegistry.send_message r topic data s = Some (tx, s') /\
     messages s' = messages s ++ [sub] /\
     sm_topic_id sub = Some topic /\ sm_result sub = tx /\
     operator_id_of (sm_message sub) = Some (account_id a +:+ "@None")) /\
  (truthy (outbound_topic_id a) = true ->
   forall target, exists s' sub,
     AgentRegistry.send_connection_request r target s = Some (tx, s') /\
     messages s' = messages s ++ [sub] /\
     sm_topic_id sub = Some target /\ sm_result sub = tx /\
     operator_id_of (sm_message sub) = Some (account_id a +:+ "@None")).
Proof.
  intros Hr Hin tx. split.
  - intros topic data. run_steps. fold tx.
    destruct (truthy tx) eqn:Etx; run_steps; do 2 eexists;
      (split; [reflexivity|]); cbn; unfold AgentRegistry.operator_id;
      rewrite Hin; repeat split.
  - intros Hout target.
    rewrite (send_connection_request_run s r a target Hr Hout). fold tx.
    do 2 eexists. split; [reflexivity|]. cbn.
    unfold AgentRegistry.operator_id. rewrite Hin. repeat split.
Qed.

Lemma operator_id_without_inbound_topic_witness :
  exists s' sub,
    AgentRegistry.send_message 3 "0.0.300" "hello"
      (mock_world {[ 3%nat := agent_N ]} [])
      = Some (Some "0.0.123456@1234567890.123456789", s') /\
    messages s' = [sub] /\
    operator_id_of (sm_message sub) = Some "0.0.300@None".
Proof.
  assert (Hr : objs (mock_world {[ 3%nat := agent_N ]} []) !! 3%nat
               = Some agent_N) by (vm_compute; reflexivity).
  destruct (proj1 (operator_id_without_inbound_topic
                     (mock_world {[ 3%nat := agent_N ]} []) 3%nat agent_N
                     Hr eq_refl) "0.0.300" "hello")
    as (s' & sub & Hrun & Hm & _ & _ & Hop).
  exists s', sub. repeat split; assumption.
Defined.
